(** * NCAA coaching-staff scraper: a shallow embedding of [web_scraper.py]

  The development follows the Python module function by function.
  Python strings are modelled as [string] (one [ascii] per character,
  so [lower], [strip] and [\d] are the ASCII ones), parsed markup as a
  tree of [Tag]s and [NavigableString]s, dictionaries as [gmap string
  pyval], and the network, the clock and exceptions through a small
  state-and-exception monad whose state is the trace of effects. *)

From Stdlib Require Import String Ascii List ZArith Lia Bool.
From stdpp Require Import base option gmap strings list pretty.
Import ListNotations.

Local Open Scope string_scope.
Local Open Scope list_scope.

(** ** Python [str] operations *)

Module PyStr.

Definition is_upper (c : ascii) : bool :=
  let n := nat_of_ascii c in (65 <=? n)%nat && (n <=? 90)%nat.

Definition is_lower (c : ascii) : bool :=
  let n := nat_of_ascii c in (97 <=? n)%nat && (n <=? 122)%nat.

Definition is_digit (c : ascii) : bool :=
  let n := nat_of_ascii c in (48 <=? n)%nat && (n <=? 57)%nat.

(** [str.isspace] on the ASCII range: TAB..CR, FS..US and the blank. *)
Definition is_space (c : ascii) : bool :=
  let n := nat_of_ascii c in
  ((9 <=? n)%nat && (n <=? 13)%nat) || ((28 <=? n)%nat && (n <=? 32)%nat).

Definition lower_char (c : ascii) : ascii :=
  if is_upper c then ascii_of_nat (nat_of_ascii c + 32) else c.

Definition upper_char (c : ascii) : ascii :=
  if is_lower c then ascii_of_nat (nat_of_ascii c - 32) else c.

(** [s.lower()] *)
Fixpoint lower (s : string) : string :=
  match s with
  | EmptyString => EmptyString
  | String c s' => String (lower_char c) (lower s')
  end.

(** [s.startswith(p)] *)
Fixpoint startswith (p s : string) : bool :=
  match p, s with
  | EmptyString, _ => true
  | String _ _, EmptyString => false
  | String a p', String b s' => if Ascii.eqb a b then startswith p' s' else false
  end.

(** [sub in s] *)
Fixpoint str_in (sub s : string) : bool :=
  startswith sub s ||
  match s with
  | EmptyString => false
  | String _ s' => str_in sub s'
  end.

(** [any(k in s for k in keywords)] *)
Definition any_in (keywords : list string) (s : string) : bool :=
  existsb (fun k => str_in k s) keywords.

Fixpoint lstrip (s : string) : string :=
  match s with
  | EmptyString => EmptyString
  | String c s' => if is_space c then lstrip s' else s
  end.

Definition rstrip (s : string) : string :=
  String.rev (lstrip (String.rev s)).

(** [s.strip()] *)
Definition strip (s : string) : string := rstrip (lstrip s).

(** [s.split(sep)[0]] for a one-character separator: the part of [s]
    before the first [sep], all of [s] when there is none. *)
Fixpoint split_head (sep : ascii) (s : string) : string :=
  match s with
  | EmptyString => EmptyString
  | String c s' => if Ascii.eqb c sep then EmptyString else String c (split_head sep s')
  end.

(** [s.replace(old, new)] for a non-empty [old]: occurrences are
    replaced from the left and do not overlap; [skip] counts the
    characters of a matched occurrence still to be dropped. *)
Fixpoint replace_go (old new : string) (skip : nat) (s : string) : string :=
  match s with
  | EmptyString => EmptyString
  | String c s' =>
      match skip with
      | S k => replace_go old new k s'
      | O =>
          if startswith old s
          then new +:+ replace_go old new (String.length old - 1) s'
          else String c (replace_go old new 0 s')
      end
  end.

Definition replace (old new s : string) : string := replace_go old new 0 s.

(** [s.title()] *)
Fixpoint title_go (in_word : bool) (s : string) : string :=
  match s with
  | EmptyString => EmptyString
  | String c s' =>
      if is_upper c || is_lower c
      then String (if in_word then lower_char c else upper_char c) (title_go true s')
      else String c (title_go false s')
  end.

Definition title (s : string) : string := title_go false s.

(** Truthiness of a string: [bool(s)]. *)
Definition truthy (s : string) : bool :=
  match s with EmptyString => false | String _ _ => true end.

(** [re.search(r'/\d{4}<sep>\d{1,2}<sep>\d{1,2}/', s)], with [sep] one
    literal character: the matcher tried at the head of [s] ... *)
Definition digits_then (n : nat) (k : string -> bool) : string -> bool :=
  Nat.iter n
    (fun (k' : string -> bool) (s : string) =>
       match s with
       | String c s' => is_digit c && k' s'
       | EmptyString => false
       end) k.

Definition lit_then (a : ascii) (k : string -> bool) (s : string) : bool :=
  match s with
  | String c s' => Ascii.eqb c a && k s'
  | EmptyString => false
  end.

Definition one_or_two_digits_then (k : string -> bool) (s : string) : bool :=
  digits_then 2 k s || digits_then 1 k s.

Definition date_at (sep : ascii) : string -> bool :=
  lit_then "/"
    (digits_then 4
       (lit_then sep
          (one_or_two_digits_then
             (lit_then sep
                (one_or_two_digits_then
                   (lit_then "/" (fun _ => true))))))).

(** ... and at every later position. *)
Fixpoint re_search_date (sep : ascii) (s : string) : bool :=
  date_at sep s ||
  match s with
  | EmptyString => false
  | String _ s' => re_search_date sep s'
  end.

End PyStr.

Import PyStr.

(** ** Parsed markup, as BeautifulSoup presents it

  A parsed page is a tree: a [NavigableString] is a run of text, a
  [Tag] has a name, its [class] attribute as the list of its tokens
  (the one multi-valued attribute the scraper looks at), its other
  attributes and its children.  The soup itself is the root tag. *)

#[warnings="-register-all"]
Inductive node : Type :=
| NavigableString (s : string)
| Tag (name : string) (classes : list string)
    (attrs : list (string * string)) (contents : list node).

Module Bs4.

(** [tag.descendants]: every node below [n], in document order. *)
Fixpoint descendants (n : node) : list node :=
  match n with
  | NavigableString _ => []
  | Tag _ _ _ kids => flat_map (fun k => k :: descendants k) kids
  end.

(** A tag whose name is one of [names]. *)
Definition is_tag (names : list string) (n : node) : bool :=
  match n with
  | Tag nm _ _ _ => existsb (String.eqb nm) names
  | NavigableString _ => false
  end.

(** [class_=f]: some class token satisfies [f]. *)
Definition class_where (f : string -> bool) (n : node) : bool :=
  match n with
  | Tag _ cls _ _ => existsb f cls
  | NavigableString _ => false
  end.

(** [class_='c']: [c] is one of the class tokens. *)
Definition has_class (c : string) : node -> bool := class_where (String.eqb c).

Fixpoint assoc (k : string) (l : list (string * string)) : option string :=
  match l with
  | [] => None
  | (k', v) :: l' => if String.eqb k k' then Some v else assoc k l'
  end.

(** [tag.get(k)] *)
Definition get (k : string) (n : node) : option string :=
  match n with
  | Tag _ _ attrs _ => assoc k attrs
  | NavigableString _ => None
  end.

(** [href=lambda x: x and sub in x] *)
Definition href_contains (sub : string) (n : node) : bool :=
  match get "href" n with
  | Some h => truthy h && str_in sub h
  | None => false
  end.

(** [n.find_all(...)] and [n.find(...)], the filter given as [p]. *)
Definition find_all (p : node -> bool) (n : node) : list node :=
  List.filter p (descendants n).

Definition find (p : node -> bool) (n : node) : option node :=
  head (find_all p n).

(** The text runs of [n], in document order. *)
Fixpoint strings (n : node) : list string :=
  match n with
  | NavigableString s => [s]
  | Tag _ _ _ kids => flat_map strings kids
  end.

(** [n.get_text()] *)
Definition get_text (n : node) : string := String.concat "" (strings n).

(** [n.stripped_strings] *)
Definition stripped_strings (n : node) : list string :=
  List.filter truthy (map strip (strings n)).

(** [n.get_text(strip=True)] *)
Definition get_text_strip (n : node) : string :=
  String.concat "" (stripped_strings n).

(** [soup.select('.c')] is [select None "c"], [soup.select('t.c')] is
    [select (Some "t") "c"]. *)
Definition select (tag : option string) (c : string) (soup : node) : list node :=
  find_all (fun n =>
              match tag with
              | Some t => is_tag [t] n
              | None => true
              end && has_class c n) soup.

End Bs4.

Import Bs4.

(** ** Python values, dictionaries and exceptions *)

Inductive pyval : Type :=
| PNone
| PStr (s : string)
| PInt (z : Z).

Abbreviation dict := (gmap string pyval).

(** [None] or a string. *)
Definition of_opt (o : option string) : pyval :=
  match o with
  | Some s => PStr s
  | None => PNone
  end.

(** [d.get(k)] and [d.get(k, default)] *)
Definition dict_get (d : dict) (k : string) : pyval := default PNone (d !! k).

Definition dict_get_or (d : dict) (k : string) (dflt : pyval) : pyval :=
  default dflt (d !! k).

(** [bool(v)] *)
Definition pytruthy (v : pyval) : bool :=
  match v with
  | PNone => false
  | PStr s => truthy s
  | PInt z => negb (Z.eqb z 0)
  end.

Inductive exn : Type :=
| RequestException
| KeyError
| AttributeError
| TypeError.

Inductive result (A : Type) : Type :=
| Ok (a : A)
| Raise (e : exn).

Arguments Ok {A} a.
Arguments Raise {A} e.

(** ** The coach-listing extractor, [extract_coach_listings_bs4]

    The function only logs; its log lines are kept as the second
    component of the result. *)

Inductive log_event : Type :=
| WarnSidearmRow (e : exn)
| InfoSelector (n : nat) (selector : string)
| InfoGenericApproach
| InfoPotentialElements (n : nat).

Definition position_keywords : list string :=
  ["head coach"; "assistant coach"; "coach"; "director"; "coordinator"].

Definition sport_keywords : list string :=
  ["basketball"; "football"; "soccer"; "baseball"; "softball";
   "volleyball"; "tennis"; "golf"; "track"; "swimming"].

(** Each selector with the tag and class it names. *)
Definition container_selectors : list (string * (option string * string)) :=
  [ (".coach-card", (None, "coach-card")); (".staff-card", (None, "staff-card"));
    (".directory-item", (None, "directory-item")); (".staff-member", (None, "staff-member"));
    (".coach-profile", (None, "coach-profile")); (".staff-profile", (None, "staff-profile"));
    (".bio-card", (None, "bio-card")); (".personnel-card", (None, "personnel-card"));
    (".coach", (None, "coach")); (".staff", (None, "staff"));
    (".directory-listing", (None, "directory-listing")); (".staff-listing", (None, "staff-listing"));
    ("div.coach", (Some "div", "coach")); ("div.staff", (Some "div", "staff"));
    ("div.directory", (Some "div", "directory")); ("div.personnel", (Some "div", "personnel")) ].

(** [soup.find_all('table', class_='sidearm-table')],
    [table.find_all('tr', class_='sidearm-coaches-coach')],
    [find('a', href=lambda x: x and 'mailto:' in x)] and the same for
    ['tel:'], as filters. *)
Definition is_sidearm_table (n : node) : bool :=
  is_tag ["table"] n && has_class "sidearm-table" n.

Definition is_coach_row (n : node) : bool :=
  is_tag ["tr"] n && has_class "sidearm-coaches-coach" n.

Definition mailto_anchor (n : node) : bool := is_tag ["a"] n && href_contains "mailto:" n.

Definition tel_anchor (n : node) : bool := is_tag ["a"] n && href_contains "tel:" n.

(** The rows the two nested loops visit, in the order they visit them. *)
Definition sidearm_rows_of (soup : node) : list node :=
  flat_map (find_all is_coach_row) (find_all is_sidearm_table soup).

Section Extractor.

(** [urllib.parse.urljoin], and [BeautifulSoup(html, 'html.parser')] *)
Variable urljoin : string -> string -> string.
Variable BeautifulSoup : string -> node.

(** The body of the [try] for one row of a sidearm table: [Ok (Some c)]
    appends [c], [Ok None] appends nothing, [Raise] is the exception
    the handler receives ([name_link['href']] on an anchor without
    [href]). *)
Definition sidearm_row (base_url : string) (row : node) : result (option dict) :=
  let cells := find_all (is_tag ["td"; "th"]) row in
  let image_url :=
    match cells !! 0%nat with
    | Some c0 =>
        match find (is_tag ["img"]) c0 with
        | Some img_tag => get "src" img_tag
        | None => None
        end
    | None => None
    end in
  let name_profile : result (option string * option string) :=
    match cells !! 1%nat with
    | Some name_cell =>
        match find (is_tag ["a"]) name_cell with
        | Some name_link =>
            match get "href" name_link with
            | Some h => Ok (Some (get_text_strip name_link), Some (urljoin base_url h))
            | None => Raise KeyError
            end
        | None => Ok (Some (get_text_strip name_cell), None)
        end
    | None => Ok (None, None)
    end in
  match name_profile with
  | Raise e => Raise e
  | Ok (name, profile_url) =>
      let position := get_text_strip <$> cells !! 2%nat in
      let email :=
        match cells !! 3%nat with
        | Some c3 =>
            match find mailto_anchor c3 with
            | Some email_link => replace "mailto:" "" <$> get "href" email_link
            | None => None
            end
        | None => None
        end in
      let phone :=
        match cells !! 4%nat with
        | Some c4 =>
            match find tel_anchor c4 with
            | Some phone_link => Some (get_text_strip phone_link)
            | None => Some (get_text_strip c4)
            end
        | None => None
        end in
      let coach : dict :=
        {[ "name" := of_opt name;
           "position" := of_opt position;
           "sport" := PStr "Football";
           "profile_url" := of_opt profile_url;
           "email" := of_opt email;
           "phone" := of_opt phone;
           "image_url" := of_opt image_url ]} in
      match name with
      | Some (String _ _) => Ok (Some coach)
      | _ => Ok None
      end
  end.

(** The two nested [for] loops over tables and rows. *)
Fixpoint sidearm_rows (base_url : string) (rows : list node) : list dict * list log_event :=
  match rows with
  | [] => ([], [])
  | row :: rest =>
      let '(coaches, logs) := sidearm_rows base_url rest in
      match sidearm_row base_url row with
      | Ok (Some coach) => (coach :: coaches, logs)
      | Ok None => (coaches, logs)
      | Raise e => (coaches, WarnSidearmRow e :: logs)
      end
  end.

Definition sidearm_strategy (soup : node) (base_url : string) : list dict * list log_event :=
  sidearm_rows base_url (sidearm_rows_of soup).

(** [for selector in container_selectors: ... break] *)
Fixpoint first_selector (sels : list (string * (option string * string))) (soup : node)
  : option (string * list node) :=
  match sels with
  | [] => None
  | (text, (tag, c)) :: rest =>
      match select tag c soup with
      | [] => first_selector rest soup
      | elements => Some (text, elements)
      end
  end.

Definition generic_candidate (element : node) : bool :=
  let text := lower (get_text element) in
  (str_in "coach" text || str_in "staff" text)
  && (str_in "email" text || str_in "phone" text || str_in "@" text).

(** The first of [l], in order, that [f] maps to something. *)
Fixpoint first_some {A B : Type} (f : A -> option B) (l : list A) : option B :=
  match l with
  | [] => None
  | x :: l' =>
      match f x with
      | Some y => Some y
      | None => first_some f l'
      end
  end.

(** The body of the [try] for one candidate container.  Every subscript
    in it is guarded, so no exception reaches the handler; [None] is a
    container without a name. *)
Definition coach_of_element (base_url : string) (element : node) : option dict :=
  let name_element :=
    find (is_tag ["h1"; "h2"; "h3"; "h4"; "h5"; "h6"; "strong"; "b"]) element in
  let name0 := (fun e => strip (get_text e)) <$> name_element in
  let name :=
    match name0 with
    | Some (String _ _) => name0
    | _ =>
        match map strip (stripped_strings element) with
        | first :: _ => Some first
        | [] => name0
        end
    end in
  let blocks := find_all (is_tag ["p"; "div"; "span"]) element in
  let position :=
    first_some (fun p =>
                  if any_in position_keywords (strip (lower (get_text p)))
                  then Some (strip (get_text p)) else None) blocks in
  let sport :=
    first_some (fun p =>
                  let text := strip (lower (get_text p)) in
                  first_some (fun keyword =>
                                if str_in keyword text then Some (title keyword) else None)
                             sport_keywords) blocks in
  let profile_url :=
    match find (is_tag ["a"]) element with
    | Some profile_link =>
        match get "href" profile_link with
        | Some href => Some (if startswith "http" href then href else urljoin base_url href)
        | None => None
        end
    | None => None
    end in
  let email :=
    match find mailto_anchor element with
    | Some email_element => replace "mailto:" "" <$> get "href" email_element
    | None => None
    end in
  let phone :=
    match find tel_anchor element with
    | Some phone_element => replace "tel:" "" <$> get "href" phone_element
    | None => None
    end in
  match name with
  | Some (String _ _) =>
      Some ({[ "name" := of_opt name;
               "position" := of_opt position;
               "sport" := of_opt sport;
               "profile_url" := of_opt profile_url;
               "email" := of_opt email;
               "phone" := of_opt phone ]} : dict)
  | _ => None
  end.

(** Strategies two and three: the container selectors, else the scan
    of every [div], [li] and [article]. *)
Definition container_strategy (soup : node) (base_url : string) : list dict * list log_event :=
  let '(coach_elements, logs) :=
    match first_selector container_selectors soup with
    | Some (text, elements) => (elements, [InfoSelector (length elements) text])
    | None =>
        (List.filter generic_candidate (find_all (is_tag ["div"; "li"; "article"]) soup),
         [InfoGenericApproach])
    end in
  (omap (coach_of_element base_url) coach_elements,
   logs ++ [InfoPotentialElements (length coach_elements)]).

Definition extract_coach_listings_bs4 (html_content : string) (base_url : string)
  : list dict * list log_event :=
  let soup := BeautifulSoup html_content in
  let '(coaches, logs) := sidearm_strategy soup base_url in
  match coaches with
  | _ :: _ => (coaches, logs)
  | [] =>
      let '(coaches', logs') := container_strategy soup base_url in
      (coaches', logs ++ logs')
  end.

End Extractor.

(** ** Effects: the network, the clock and exceptions

    A computation threads the trace of the effects performed so far and
    ends in a value or in a raised exception.  The trace is
    chronological: an effect is appended at its end. *)

Record response : Type := { status_code : Z; text : string }.

Inductive event : Type :=
| SleepUniform (lo hi : Z)                (* time.sleep(random.uniform(lo, hi)) *)
| Sleep (seconds : Z)                     (* time.sleep(seconds) *)
| SessionGet (url : string) (timeout : Z) (* self.session.get(url, timeout=...) *)
| RequestsGet (url : string) (timeout : Z)(* requests.get(url, timeout=...) *).

Definition trace : Type := list event.

(** What a GET of a URL yields after a given history: a response, or
    [None] when the request itself raises a [RequestException]
    (connection refused, timeout, ...). *)
Definition network : Type := trace -> string -> option response.

Definition M (A : Type) : Type := trace -> result A * trace.

Definition ret {A : Type} (a : A) : M A := fun tr => (Ok a, tr).

Definition bind {A B : Type} (m : M A) (f : A -> M B) : M B :=
  fun tr =>
    match m tr with
    | (Ok a, tr') => f a tr'
    | (Raise e, tr') => (Raise e, tr')
    end.

Definition raise {A : Type} (e : exn) : M A := fun tr => (Raise e, tr).

(** [try: body  except <catches>: handler] *)
Definition try_except {A : Type} (body : M A) (catches : exn -> bool)
           (handler : exn -> M A) : M A :=
  fun tr =>
    match body tr with
    | (Ok a, tr') => (Ok a, tr')
    | (Raise e, tr') => if catches e then handler e tr' else (Raise e, tr')
    end.

Definition emit (e : event) : M unit := fun tr => (Ok tt, tr ++ [e]).

Notation "'let*' x ':=' c1 'in' c2" := (bind c1 (fun x => c2))
  (at level 10, x pattern, c1 at level 100, c2 at level 200).

(** [except requests.exceptions.RequestException] and [except Exception] *)
Definition is_RequestException (e : exn) : bool :=
  match e with
  | RequestException => true
  | _ => false
  end.

Definition any_Exception (e : exn) : bool := true.

(** What a loop body does next: [return v] out of the function, or go
    on with the next iteration. *)
Inductive flow (A : Type) : Type :=
| Return (v : A)
| Continue.

Arguments Return {A} v.
Arguments Continue {A}.

(** [response.raise_for_status()], as the requests library defines it:
    an [HTTPError] (a [RequestException]) for a status from 400 to 599,
    nothing otherwise. *)
Definition raise_for_status (r : response) : M unit :=
  if (400 <=? status_code r)%Z && (status_code r <? 600)%Z
  then raise RequestException
  else ret tt.

Definition coaches_patterns : list string :=
  ["/coaches"; "/coaching-staff"; "/football/coaches"; "/football/staff";
   "/football/coaching-staff"; "/football/coaches"; "/sports/football/coaches";
   "/staff-directory"].

Definition roster_patterns : list string :=
  ["/roster"; "/team-roster"; "/football/roster"; "/football/team-roster";
   "/sports/football/roster"; "/football/roster.html"; "/football/team-roster.html"].

Definition coaches_probe_keywords : list string := ["coach"; "staff"; "coaching staff"].

Definition roster_probe_keywords : list string := ["roster"; "players"; "team roster"].

(** Keyword tables of [find_football_team_page] *)
Module FootballTeamPage.

Definition keywords : list string :=
  ["football"; "football program"; "fball"; "football team"; "football home"].

Definition negative_keywords : list string :=
  ["soccer"; "baseball"; "basketball"; "volleyball"; "softball"; "lacrosse";
   "tennis"; "golf"; "swimming"; "diving"; "track"; "field";
   "cross country"; "wrestling"; "hockey"; "rowing"; "gymnastics"; "rugby";
   "bowling"; "fencing"; "water polo"; "beach volleyball"; "field hockey";
   "skiing"; "equestrian"].

Definition nav_words : list string := ["menu"; "nav"; "dropdown"; "sports"; "athletics"].

End FootballTeamPage.

(** Keyword tables of [find_coaches_page] *)
Module CoachesPage.

Definition negative_keywords : list string :=
  ["soccer"; "baseball"; "basketball"; "volleyball"; "softball"; "lacrosse";
   "tennis"; "golf"; "swimming"; "diving"; "track"; "field";
   "cross country"; "wrestling"; "hockey"; "rowing"; "gymnastics"; "rugby";
   "bowling"; "fencing"; "water polo"; "beach volleyball"; "field hockey";
   "skiing"; "equestrian"].

Definition coaches_keywords : list string :=
  ["coaches"; "coaching staff"; "staff directory"; "football staff";
   "coaches & staff"; "coaches and staff"; "staff"; "directory"].

Definition roster_keywords : list string :=
  ["roster"; "team roster"; "football roster"; "players"].

Definition nav_words : list string :=
  ["menu"; "nav"; "dropdown"; "football"; "staff"; "roster"].

End CoachesPage.

(** Keyword tables of [find_coaches_or_roster_link].  The list literal
    of the source lacks a comma after two of its strings, which the
    language then joins with the next one: the list holds
    ["securesecure"] and ["resourceslogin"]. *)
Module CoachesOrRosterLink.

Definition coaches_keywords : list string :=
  ["coaches"; "coaching staff"; "staff directory"; "football staff";
   "coaches & staff"; "coaches and staff"; "staff"; "directory"].

Definition roster_keywords : list string :=
  ["roster"; "team roster"; "football roster"; "players"].

Definition negative_keywords0 : list string :=
  ["soccer"; "baseball"; "basketball"; "volleyball"; "softball"; "lacrosse";
   "tennis"; "golf"; "swimming"; "diving"; "track"; "field";
   "cross country"; "wrestling"; "hockey"; "rowing"; "gymnastics"; "rugby";
   "bowling"; "fencing"; "water polo"; "beach volleyball"; "field hockey";
   "skiing"; "equestrian"; "esports"; "dance-team"; "cheerleading";
   "spirit"; "news"; "article"; "press"; "release"; "voice"; "tv"; "clinic";
   "family"; "camp"; "youth"; "fan"; "shop"; "store"; "tickets";
   "cross-country"; "department"; "cycling"; "wrest"; "equest"; "fh";
   "securesecure"; "administration"; "medicine"; "pdf"; "corner";
   "resourceslogin"; "register"; "sign-up"; "sign in"; "sign-in"; "log in";
   "log-in"; "mvball"; "wvball"; "m-baskbl"; "w-baskbl"; "m-soc"; "w-soc";
   "m-lax"; "w-lax"; "wwrest"; "m-wrest"; "m-gym"; "w-gym"; "m-swim";
   "w-swim"; "m-ten"; "w-ten"; "roger"; "access"; "roque"; "jc"; "sail";
   "crew"; "crew"; "sailing"].

Definition sport_abbreviations : list string :=
  ["bsb"; "mbkb"; "wbkb"; "mxc"; "wxc"; "mlax"; "wlax"; "msoc"; "wsoc";
   "sball"; "mswimdive"; "wswimdive"; "mten"; "wten"; "wvball"; "w-baskbl";
   "m-xc"; "w-xc"; "w-softbl"; "m-baskbl"; "m-basebl"; "w-volley"; "c-swim";
   "social"; "w-baskbl"; "w-gym"; "w-swim"; "m-gym"; "m-swim"; "m-lax";
   "w-lax"; "m-soc"; "w-soc"; "m-ten"; "w-ten"; "m-golf"; "w-golf";
   "m-track"; "w-track"; "m-fieldhockey"; "w-fieldhockey"; "m-wrestling";
   "w-wrestling"; "m-rugby"; "w-rugby"; "m-rowing"; "w-rowing";
   "m-gymnastics"; "w-gymnastics"; "m-equestrian"; "w-equestrian";
   "m-waterpolo"; "w-waterpolo"; "m-beachvolleyball"; "w-beachvolleyball";
   "m-skiing"; "w-skiing"; "m-fencing"; "w-fencing"; "m-bowling";
   "w-bowling"; "m-dance"; "w-dance"; "m-cheerleading"; "w-cheerleading";
   "m-esports"; "w-esports"; "m-voice"; "w-voice"; "m-tv"; "w-tv";
   "m-clinic"; "w-clinic"; "m-family"; "w-family"].

(** [negative_keywords.extend([abbr for abbr in sport_abbreviations])] *)
Definition negative_keywords : list string := negative_keywords0 ++ sport_abbreviations.

Definition nav_words : list string :=
  ["menu"; "nav"; "dropdown"; "coach"; "coaches"; "staff"; "football"; "roster"; "rosters"].

End CoachesOrRosterLink.

Inductive category : Type := Coaches | Roster.

(** What [scrape_school] returns. *)
Record school_result : Type :=
  { school_data : dict; coaches : list dict; success : bool }.

(** [str(v)] *)
Definition pystr (v : pyval) : string :=
  match v with
  | PStr s => s
  | PInt z => pretty z
  | PNone => "None"
  end.

Section Scraper.

Variable urljoin : string -> string -> string.
Variable BeautifulSoup : string -> node.
(** [urlparse(url).netloc] *)
Variable netloc : string -> string.
(** The constructor of the external [AIParser] class. *)
Variable AIParser : string -> string -> result unit.
Variable net : network.

Definition session_get (url : string) (timeout : Z) : M response :=
  fun tr =>
    match net tr url with
    | Some r => (Ok r, tr ++ [SessionGet url timeout])
    | None => (Raise RequestException, tr ++ [SessionGet url timeout])
    end.

Definition requests_get (url : string) (timeout : Z) : M response :=
  fun tr =>
    match net tr url with
    | Some r => (Ok r, tr ++ [RequestsGet url timeout])
    | None => (Raise RequestException, tr ++ [RequestsGet url timeout])
    end.

(** *** [get_page]

    [attempts] is what is left of [range(max_retries)]. *)
Fixpoint get_page_loop (url : string) (max_retries : Z) (attempts : list nat)
  : M (option string) :=
  match attempts with
  | [] => ret None
  | attempt :: rest =>
      let* step :=
        try_except
          (let* _ := emit (SleepUniform 1 3) in
           let* response := session_get url 30 in
           let* _ := raise_for_status response in
           ret (Return (Some (text response))))
          is_RequestException
          (fun _ =>
             if (Z.of_nat attempt =? max_retries - 1)%Z
             then ret (Return None)
             else
               let* _ := emit (Sleep (2 ^ Z.of_nat attempt)) in
               ret Continue) in
      match step with
      | Return v => ret v
      | Continue => get_page_loop url max_retries rest
      end
  end.

Definition get_page (url : string) (max_retries : Z) : M (option string) :=
  get_page_loop url max_retries (seq 0 (Z.to_nat max_retries)).

(** [if not html_content] *)
Definition no_content (html_content : option string) : bool :=
  match html_content with
  | Some (String _ _) => false
  | _ => true
  end.

(** *** [get_simulate_coaches_link] and [get_simulate_roster_link]

    The two differ in the pattern list and in the keywords looked for
    in the body; [probe_loop] is their common [for pattern in patterns]. *)
Fixpoint probe_loop (url : string) (keywords patterns : list string) : M (option string) :=
  match patterns with
  | [] => ret None
  | pattern :: rest =>
      let test_url := urljoin url pattern in
      let* step :=
        try_except
          (let* response := requests_get test_url 5 in
           if (status_code response =? 200)%Z
           then
             let content_lower := lower (text response) in
             if any_in keywords content_lower
             then ret (Return test_url)
             else ret Continue
           else ret Continue)
          is_RequestException
          (fun _ => ret Continue) in
      match step with
      | Return u => ret (Some u)
      | Continue => probe_loop url keywords rest
      end
  end.

Definition get_simulate_coaches_link (url : string) : M (option string) :=
  try_except (probe_loop url coaches_probe_keywords coaches_patterns)
             any_Exception (fun _ => ret None).

Definition get_simulate_roster_link (url : string) : M (option string) :=
  try_except (probe_loop url roster_probe_keywords roster_patterns)
             any_Exception (fun _ => ret None).

(** *** Anchors and their classification *)

(** [any(k in text.lower() or k in href.lower() for k in keywords)] *)
Definition mentions (keywords : list string) (text href : string) : bool :=
  existsb (fun keyword => str_in keyword (lower text) || str_in keyword (lower href)) keywords.

(** [soup.find_all(['nav', 'div', 'ul'], class_=lambda x: x and any(word
    in x.lower() for word in words))] *)
Definition nav_elements (words : list string) (soup : node) : list node :=
  find_all (fun n => is_tag ["nav"; "div"; "ul"] n
                     && class_where (fun x => truthy x && any_in words (lower x)) n) soup.

(** The anchors the two nested loops [for nav ...: for link in
    nav.find_all('a')] visit, in the order they visit them. *)
Definition nav_links (words : list string) (soup : node) : list node :=
  flat_map (find_all (is_tag ["a"])) (nav_elements words soup).

Definition all_links (soup : node) : list node := find_all (is_tag ["a"]) soup.

Definition links_of (c : category) (l : list (category * string)) : list string :=
  omap (fun '(c', u) => match c, c' with
                        | Coaches, Coaches | Roster, Roster => Some u
                        | _, _ => None
                        end) l.

(** [if not url.startswith(('http://', 'https://')): url = 'https://' + url] *)
Definition add_scheme (url : string) : string :=
  if startswith "http://" url || startswith "https://" url then url else "https://" +:+ url.

(** Reading [self.ai_parser].  [__init__] has its assignment commented
    out and nothing else sets it, so the read raises. *)
Definition self_ai_parser {A : Type} : M A := raise AttributeError.

(** *** [find_football_team_page] *)

Definition football_link (athletics_url : string) (link : node) : option string :=
  match get "href" link with
  | Some (String _ _ as href) =>
      let text := lower (get_text link) in
      if mentions FootballTeamPage.negative_keywords text href then None
      else if mentions FootballTeamPage.keywords text href
           then Some (urljoin athletics_url href)
           else None
  | _ => None
  end.

Definition find_football_team_page (athletics_url : pyval) : M (option string) :=
  try_except
    (match athletics_url with
     | PStr url =>
         let athletics_url := add_scheme url in
         if negb (truthy (netloc athletics_url)) then ret None
         else
           let* html_content := get_page athletics_url 1 in
           match html_content with
           | Some (String _ _ as html) =>
               let soup := BeautifulSoup html in
               let in_nav :=
                 omap (football_link athletics_url)
                      (nav_links FootballTeamPage.nav_words soup) in
               let potential_links :=
                 match in_nav with
                 | [] => omap (football_link athletics_url) (all_links soup)
                 | _ :: _ => in_nav
                 end in
               match potential_links with
               | first :: _ => ret (Some (split_head "?" first))
               | [] => self_ai_parser
               end
           | _ => ret None
           end
     | _ => raise AttributeError
     end)
    any_Exception (fun _ => ret None).

(** *** [find_coaches_page] *)

Definition coaches_page_link (athletics_url : string) (link : node)
  : option (category * string) :=
  match get "href" link with
  | Some (String _ _ as href) =>
      let text := lower (get_text link) in
      if mentions CoachesPage.negative_keywords text href then None
      else if mentions CoachesPage.coaches_keywords text href
           then Some (Coaches, urljoin athletics_url href)
           else if mentions CoachesPage.roster_keywords text href
                then Some (Roster, urljoin athletics_url href)
                else None
  | _ => None
  end.

(** [[link for link in links if 'football' in link.lower() or 'coaches'
    in link.lower()]] *)
Definition filter_football (links : list string) : list string :=
  List.filter (fun link => str_in "football" (lower link) || str_in "coaches" (lower link)) links.

(** The candidates of the page at [athletics_url]: those of the
    navigation regions, and those of the whole page when these are none. *)
Definition coaches_page_links (athletics_url : string) (soup : node)
  : list (category * string) :=
  match omap (coaches_page_link athletics_url) (nav_links CoachesPage.nav_words soup) with
  | [] => omap (coaches_page_link athletics_url) (all_links soup)
  | in_nav => in_nav
  end.

Definition find_coaches_page (athletics_url : string) : M (option string) :=
  try_except
    (let athletics_url := add_scheme athletics_url in
     let* html_content := get_page athletics_url 1 in
     match html_content with
     | Some (String _ _ as html) =>
         let soup := BeautifulSoup html in
         let found := coaches_page_links athletics_url soup in
         let potential_coaches_links := links_of Coaches found in
         let potential_roster_links := links_of Roster found in
         match filter_football potential_coaches_links with
         | chosen_link :: _ => ret (Some chosen_link)
         | [] =>
             match potential_roster_links with
             | first :: _ => ret (Some (split_head "?" first))
             | [] =>
                 match potential_coaches_links with
                 | chosen_link :: _ => ret (Some chosen_link)
                 | [] => self_ai_parser
                 end
             end
         end
     | _ => ret None
     end)
    any_Exception (fun _ => ret None).

(** *** [find_coaches_or_roster_link] *)

Definition coaches_or_roster_link (url : string) (link : node)
  : option (category * string) :=
  match get "href" link with
  | Some (String _ _ as href) =>
      let text := lower (get_text link) in
      if mentions CoachesOrRosterLink.negative_keywords text href then None
      else if re_search_date "/" href || re_search_date "-" href then None
      else if mentions CoachesOrRosterLink.coaches_keywords text href
           then
             if str_in "coach" (lower text) || str_in "staff" (lower text)
                || str_in "coach" (lower href) || str_in "staff" (lower href)
             then Some (Coaches, urljoin url href)
             else None
           else if mentions CoachesOrRosterLink.roster_keywords text href
                then
                  if str_in "roster" (lower text) || str_in "roster" (lower href)
                     || str_in "players" (lower text) || str_in "players" (lower href)
                  then Some (Roster, urljoin url href)
                  else None
                else None
  | _ => None
  end.

(** The candidates of the page at [url]: those of the navigation
    regions, and those of the whole page when these are none. *)
Definition classified_links (url : string) (soup : node) : list (category * string) :=
  match omap (coaches_or_roster_link url) (nav_links CoachesOrRosterLink.nav_words soup) with
  | [] => omap (coaches_or_roster_link url) (all_links soup)
  | in_nav => in_nav
  end.

Definition find_coaches_or_roster_link (url : string) : M string :=
  try_except
    (let url := add_scheme url in
     let* response := requests_get url 60 in
     let* _ := raise_for_status response in
     let soup := BeautifulSoup (text response) in
     let found := classified_links url soup in
     let potential_coaches_links := links_of Coaches found in
     let potential_roster_links := links_of Roster found in
     let* step :=
       match filter_football potential_coaches_links with
       | chosen_link :: _ => ret (Return chosen_link)
       | [] =>
           let* simulated_coaches_link := get_simulate_coaches_link url in
           match simulated_coaches_link with
           | Some (String _ _ as link) => ret (Return link)
           | _ => ret Continue
           end
       end in
     match step with
     | Return link => ret link
     | Continue =>
         match potential_roster_links with
         | first :: _ => ret (split_head "?" first)
         | [] =>
             let* simulated_roster_link := get_simulate_roster_link url in
             match simulated_roster_link with
             | Some (String _ _ as link) => ret link
             | _ => ret "Not found"
             end
         end
     end)
    any_Exception (fun _ => ret "Not found").

(** *** [scrape_coach_roster] *)

(** The body of [for coach in coaches], the five assignments in order. *)
Definition stamp (school_data : dict) (school_name : pyval) (coach : dict) : dict :=
  <["sport" := PStr "Football"]>
    (<["conference" := dict_get school_data "conference"]>
       (<["division" := dict_get school_data "division"]>
          (<["school_name" := school_name]>
             (<["school_id" := dict_get school_data "school_id"]> coach)))).

Definition scrape_coach_roster (school_data : dict) : M (list dict) :=
  let school_name := dict_get_or school_data "school_name" (PStr "") in
  let athletics_url := dict_get_or school_data "athletics_url" (PStr "") in
  if negb (pytruthy athletics_url) then ret []
  else
    let* football_url := find_football_team_page athletics_url in
    match football_url with
    | Some (String _ _ as football_url) =>
        let* coaches_url := find_coaches_page football_url in
        match coaches_url with
        | Some (String _ _ as coaches_url) =>
            let* html_content := get_page coaches_url 1 in
            match html_content with
            | Some (String _ _ as html) =>
                let* coaches :=
                  try_except
                    (ret (fst (extract_coach_listings_bs4 urljoin BeautifulSoup html coaches_url)))
                    any_Exception
                    (fun _ => self_ai_parser) in
                ret (map (stamp school_data school_name) coaches)
            | _ => ret []
            end
        | _ => ret []
        end
    | _ => ret []
    end.

(** *** [scrape_coach_bios]

    The call of [parse_with_fallback] has [self.ai_parser.extract_coach_bio]
    among its arguments, so evaluating the arguments raises. *)
Fixpoint scrape_coach_bios (coaches : list dict) (school_name : pyval) : M (list dict) :=
  match coaches with
  | [] => ret []
  | coach :: rest =>
      let profile_url := dict_get coach "profile_url" in
      let* coach_with_bio :=
        if negb (pytruthy profile_url) then ret coach
        else
          let* html_content := get_page (pystr profile_url) 1 in
          if no_content html_content then ret coach
          else self_ai_parser in
      let* coaches_with_bios := scrape_coach_bios rest school_name in
      ret (coach_with_bio :: coaches_with_bios)
  end.

(** *** [scrape_school] *)

Definition lift {A : Type} (r : result A) : M A := fun tr => (r, tr).

Definition scrape_school (school : dict) (ai_endpoint_url ai_api_key : option string)
  : M school_result :=
  let* _ :=
    match ai_endpoint_url, ai_api_key with
    | Some (String _ _ as endpoint), Some (String _ _ as key) => lift (AIParser endpoint key)
    | _, _ => ret tt
    end in
  let* found := scrape_coach_roster school in
  match found with
  | [] => ret {| school_data := school; coaches := []; success := false |}
  | _ :: _ =>
      let* coaches_with_bios :=
        scrape_coach_bios found (dict_get_or school "school_name" (PStr "")) in
      ret {| school_data := school; coaches := coaches_with_bios; success := true |}
  end.

End Scraper.

(** * The vocabulary of the properties *)

(** A record that carries a non-empty name. *)
Definition has_name (coach : dict) : Prop :=
  exists name : string, coach !! "name" = Some (PStr name) /\ name <> "".

(** A log line of the sidearm strategy, the only one it writes. *)
Definition is_row_warning (e : log_event) : bool :=
  match e with
  | WarnSidearmRow _ => true
  | _ => false
  end.

(** A computation that ends in a value from every trace. *)
Definition total {A : Type} (m : M A) : Prop :=
  forall tr : trace, exists (a : A) (tr' : trace), m tr = (Ok a, tr').

(** An attempt fails when the request raises or the status is an error
    status for [raise_for_status]. *)
Definition attempt_fails (o : option response) : bool :=
  match o with
  | None => true
  | Some r => (400 <=? status_code r)%Z && (status_code r <? 600)%Z
  end.


(** A response that makes a probe succeed: status 200 and a body that
    holds one of the keywords, whatever the case of its letters. *)
Definition probe_hit (keywords : list string) (o : option response) : bool :=
  match o with
  | Some r => (status_code r =? 200)%Z && any_in keywords (lower (text r))
  | None => false
  end.

(** The probe of a category, with its suffixes and its keywords. *)
Definition probe (c : category)
  : (string -> string -> string) -> network -> string -> M (option string) :=
  match c with
  | Coaches => get_simulate_coaches_link
  | Roster => get_simulate_roster_link
  end.

Definition probe_patterns (c : category) : list string :=
  match c with
  | Coaches => coaches_patterns
  | Roster => roster_patterns
  end.

Definition probe_keywords (c : category) : list string :=
  match c with
  | Coaches => coaches_probe_keywords
  | Roster => roster_probe_keywords
  end.

Section ProbeVocabulary.

Variable urljoin : string -> string -> string.
Variable net : network.

(** The requests of probing [patterns] one after the other. *)
Definition probes (url : string) (patterns : list string) : trace :=
  map (fun pattern => RequestsGet (urljoin url pattern) 5) patterns.

(** Every one of [patterns], probed in turn from the trace [tr], is a
    miss: a network error, a status other than 200, or no keyword. *)
Fixpoint all_miss (keywords : list string) (url : string) (patterns : list string)
         (tr : trace) : bool :=
  match patterns with
  | [] => true
  | pattern :: rest =>
      negb (probe_hit keywords (net tr (urljoin url pattern)))
      && all_miss keywords url rest (tr ++ [RequestsGet (urljoin url pattern) 5])
  end.

End ProbeVocabulary.

(** Induction on markup, with the hypothesis for every child. *)
Fixpoint node_ind' (P : node -> Prop)
         (Hstring : forall s, P (NavigableString s))
         (Htag : forall name classes attrs contents,
             Forall P contents -> P (Tag name classes attrs contents))
         (n : node) : P n :=
  match n with
  | NavigableString s => Hstring s
  | Tag name classes attrs contents =>
      Htag name classes attrs contents
           ((fix all (l : list node) : Forall P l :=
               match l with
               | [] => @List.Forall_nil node P
               | k :: l' => @List.Forall_cons node P k l' (node_ind' P Hstring Htag k) (all l')
               end) contents)
  end.

(** The [href] of an anchor, empty when it has none. *)
Definition href_of (link : node) : string := default "" (get "href" link).

(** [keyword] occurs in [s], letter case aside. *)
Definition contains_ci (keyword s : string) : bool := str_in (lower keyword) (lower s).

(** An anchor whose [href] or visible text holds a negative keyword. *)
Definition negative (link : node) : Prop :=
  exists keyword : string,
    In keyword CoachesOrRosterLink.negative_keywords
    /\ (contains_ci keyword (href_of link) = true
        \/ contains_ci keyword (get_text link) = true).

(** [digits] in front of [rest]. *)
Definition digits_before (digits : list ascii) (rest : string) : string :=
  fold_right String rest digits.

(** [href] holds a date path: a slash, four digits, [sep], one or two
    digits, [sep], one or two digits, a slash. *)
Definition date_path (sep : ascii) (href : string) : Prop :=
  exists (pre : string) (year month day : list ascii) (post : string),
    href = pre +:+ String "/" (digits_before year (String sep
             (digits_before month (String sep
                (digits_before day (String "/" post))))))
    /\ length year = 4%nat
    /\ (length month = 1%nat \/ length month = 2%nat)
    /\ (length day = 1%nat \/ length day = 2%nat)
    /\ forallb is_digit (year ++ month ++ day) = true.

(** An anchor whose [href] holds a date path, [/YYYY/M/D/] or [/YYYY-M-D/]. *)
Definition dated (link : node) : Prop :=
  date_path "/" (href_of link) \/ date_path "-" (href_of link).


(** ** A concrete site

    The pages of a small athletics site, the markup BeautifulSoup makes
    of each, and [urljoin] and [netloc] on the URLs that occur: an
    absolute [href] stands for itself, an [href] that begins with a
    slash replaces the path of the base. *)

Module Site.

Fixpoint skip (n : nat) (s : string) : string :=
  match n, s with
  | S k, String _ s' => skip k s'
  | _, _ => s
  end.

Definition netloc (url : string) : string :=
  if startswith "https://" url then split_head "/" (skip 8 url)
  else if startswith "http://" url then split_head "/" (skip 7 url)
  else "".

Definition origin (url : string) : string :=
  if startswith "https://" url then "https://" +:+ netloc url
  else "http://" +:+ netloc url.

Definition urljoin (base href : string) : string :=
  if startswith "http://" href || startswith "https://" href then href
  else origin base +:+ href.

Definition AIParser (endpoint key : string) : result unit := Ok tt.

Definition home_html : string :=
  "<nav class='menu'><a href='/sports/football'>Football</a></nav>".

Definition home_soup : node :=
  Tag "[document]" [] []
    [Tag "nav" ["menu"] []
       [Tag "a" [] [("href", "/sports/football")] [NavigableString "Football"]]].

Definition football_html : string :=
  "<div class='nav'><a href='/sports/football/coaches'>Coaches</a></div>".

Definition football_soup : node :=
  Tag "[document]" [] []
    [Tag "div" ["nav"] []
       [Tag "a" [] [("href", "/sports/football/coaches")] [NavigableString "Coaches"]]].

Definition coaches_html : string :=
  "<table class='sidearm-table'><tr class='sidearm-coaches-coach'><td></td><td><a href='/staff/jane-doe'>Jane Doe</a></td><td>Head Coach</td><td><a href='mailto:jd@x.edu'>jd@x.edu</a></td><td></td></tr></table>".

Definition coaches_soup : node :=
  Tag "[document]" [] []
    [Tag "table" ["sidearm-table"] []
       [Tag "tr" ["sidearm-coaches-coach"] []
          [Tag "td" [] [] [];
           Tag "td" [] []
             [Tag "a" [] [("href", "/staff/jane-doe")] [NavigableString "Jane Doe"]];
           Tag "td" [] [] [NavigableString "Head Coach"];
           Tag "td" [] []
             [Tag "a" [] [("href", "mailto:jd@x.edu")] [NavigableString "jd@x.edu"]];
           Tag "td" [] [] []]]].

Definition bio_html : string := "<p>Jane Doe is the head coach.</p>".

Definition bio_soup : node :=
  Tag "[document]" [] [] [Tag "p" [] [] [NavigableString "Jane Doe is the head coach."]].

(** The table of the specification's scenario: the name is plain text,
    the phone cell is there and empty. *)
Definition jane_html : string :=
  "<table class='sidearm-table'><tr class='sidearm-coaches-coach'><td></td><td>Jane Doe</td><td>Head Coach</td><td><a href='mailto:jd@x.edu'>Email</a></td><td></td></tr></table>".

Definition jane_row : node :=
  Tag "tr" ["sidearm-coaches-coach"] []
    [Tag "td" [] [] [];
     Tag "td" [] [] [NavigableString "Jane Doe"];
     Tag "td" [] [] [NavigableString "Head Coach"];
     Tag "td" [] [] [Tag "a" [] [("href", "mailto:jd@x.edu")] [NavigableString "Email"]];
     Tag "td" [] [] []].

Definition jane_soup : node :=
  Tag "[document]" [] [] [Tag "table" ["sidearm-table"] [] [jane_row]].

(** A card of the selector strategy whose text names another sport. *)
Definition card_html : string :=
  "<div class='coach-card'><h3>Sam Roe</h3><p>Basketball coach</p></div>".

Definition card_soup : node :=
  Tag "[document]" [] []
    [Tag "div" ["coach-card"] []
       [Tag "h3" [] [] [NavigableString "Sam Roe"];
        Tag "p" [] [] [NavigableString "Basketball coach"]]].

(** A football page whose menu has a staff link that names neither
    football nor coaches. *)
Definition staff_html : string :=
  "<div class='menu'><a href='/staff'>Staff</a></div>".

Definition staff_soup : node :=
  Tag "[document]" [] []
    [Tag "div" ["menu"] [] [Tag "a" [] [("href", "/staff")] [NavigableString "Staff"]]].

(** A football page whose menu has a roster link only. *)
Definition roster_html : string :=
  "<div class='menu'><a href='/sports/football/roster?path=football'>Roster</a></div>".

Definition roster_soup : node :=
  Tag "[document]" [] []
    [Tag "div" ["menu"] []
       [Tag "a" [] [("href", "/sports/football/roster?path=football")]
          [NavigableString "Roster"]]].

(** The anchors of the specification's scenario. *)
Definition soccer_anchor : node :=
  Tag "a" [] [("href", "/m-soc/roster")] [NavigableString "Soccer Roster"].

Definition mixed_html : string :=
  "<div class='menu'><a href='/m-soc/roster'>Soccer Roster</a><a href='/football/coaches'>Coaches</a></div>".

Definition mixed_soup : node :=
  Tag "[document]" [] []
    [Tag "div" ["menu"] []
       [soccer_anchor;
        Tag "a" [] [("href", "/football/coaches")] [NavigableString "Coaches"]]].

Definition pages : list (string * node) :=
  [ (home_html, home_soup); (football_html, football_soup); (coaches_html, coaches_soup);
    (bio_html, bio_soup); (jane_html, jane_soup); (card_html, card_soup);
    (staff_html, staff_soup); (roster_html, roster_soup); (mixed_html, mixed_soup) ].

Fixpoint lookup_page (html : string) (l : list (string * node)) : node :=
  match l with
  | [] => Tag "[document]" [] [] [NavigableString html]
  | (h, soup) :: l' => if String.eqb html h then soup else lookup_page html l'
  end.

Definition BeautifulSoup (html : string) : node := lookup_page html pages.

Definition ok (body : string) : option response :=
  Some {| status_code := 200; text := body |}.

Definition not_found : option response :=
  Some {| status_code := 404; text := "Not Found" |}.

(** A server as a table from URL to response; a URL that is not in the
    table gets a 404. *)
Fixpoint serve (table : list (string * option response)) (url : string) : option response :=
  match table with
  | [] => not_found
  | (u, r) :: table' => if String.eqb url u then r else serve table' url
  end.

(** The site whose coaches page is a sidearm table with a profile link. *)
Definition net : network :=
  fun _ => serve [ ("https://x.edu", ok home_html);
                   ("https://x.edu/sports/football", ok football_html);
                   ("https://x.edu/sports/football/coaches", ok coaches_html);
                   ("https://x.edu/staff/jane-doe", ok bio_html) ].

(** The same site with no server behind it: every request raises. *)
Definition net_down : network := fun _ _ => None.



(** A football page with a roster link only, on a site that also has a
    page at [/coaches]. *)
Definition net_roster : network :=
  fun _ => serve [ ("https://x.edu/sports/football", ok roster_html);
                   ("https://x.edu/coaches", ok "<h1>Coaching Staff</h1>") ].

(** The site of the specification's classifier scenario. *)
Definition net_mixed : network :=
  fun _ => serve [ ("https://x.edu", ok mixed_html) ].

(** For the roster probe: [/roster] cannot be reached, [/team-roster] is
    a 404, [/football/roster] is there. *)
Definition net_probe : network :=
  fun _ => serve [ ("https://x.edu/roster", None);
                   ("https://x.edu/football/roster", ok "<h1>2024 Football ROSTER</h1>") ].

Definition school : dict :=
  {[ "school_id" := PInt 42;
     "school_name" := PStr "Example University";
     "athletics_url" := PStr "https://x.edu";
     "division" := PStr "FBS";
     "conference" := PStr "Example Conference" ]}.

End Site.

(** * More of the module, and its caller

    The functions of [web_scraper.py] that the pipeline above does not
    go through, and [process_school] of [child_scraping_dag_v2.py],
    which calls the link finders. *)

(** ** [get_simulate_football_link] *)

Definition football_patterns : list string :=
  ["/team/football"; "/sports/football"; "/football-team"; "/football-program";
   "/football/schedule"; "/football/roster"; "/football/coaches"; "/football/home";
   "/football/index"; "/football/team"; "/football/overview"].

Definition football_probe_keywords : list string :=
  ["football"; "fball"; "football team"; "football program"].

Definition get_simulate_football_link (urljoin : string -> string -> string)
           (net : network) (url : string) : M (option string) :=
  try_except (probe_loop urljoin net url football_probe_keywords football_patterns)
             any_Exception (fun _ => ret None).

(** ** [extract_coach_bio_bs4] *)

(** The values of the dictionary it builds: a text, or a list of texts. *)
Inductive bioval : Type :=
| BText (s : string)
| BItems (items : list string).

Definition bio_selectors : list string :=
  ["bio"; "biography"; "coach-bio"; "staff-bio"; "profile-bio"; "about";
   "description"; "coach-profile"].

Definition education_keywords : list string :=
  ["education"; "degree"; "graduate"; "university"; "college"; "school"].

Definition experience_keywords : list string :=
  ["experience"; "career"; "coaching"; "history"; "previous"].

Definition is_element (n : node) : bool :=
  match n with
  | Tag _ _ _ _ => true
  | NavigableString _ => false
  end.

(** Every node below [n], in document order, each with
    [find_next_siblings()] of it: the tags that follow it under the
    same parent. *)
Fixpoint with_next_siblings (n : node) : list (node * list node) :=
  match n with
  | NavigableString _ => []
  | Tag _ _ _ kids =>
      (fix visit (l : list node) : list (node * list node) :=
         match l with
         | [] => []
         | k :: l' => (k, List.filter is_element l') :: with_next_siblings k ++ visit l'
         end) kids
  end.

(** The inner [for sibling in heading.find_next_siblings()]: the texts
    of the [p], [li] and [div] siblings up to the next [h2], [h3] or [h4]. *)
Fixpoint section_texts (siblings : list node) : list string :=
  match siblings with
  | [] => []
  | sibling :: rest =>
      if is_tag ["h2"; "h3"; "h4"] sibling then []
      else if is_tag ["p"; "li"; "div"] sibling
           then strip (get_text sibling) :: section_texts rest
           else section_texts rest
  end.

(** The outer [for heading in soup.find_all(['h2', 'h3', 'h4', 'strong'])]:
    the section of the first heading that names a keyword and has a
    section; the empty list when there is none. *)
Fixpoint first_section (keywords : list string) (headings : list (node * list node))
  : list string :=
  match headings with
  | [] => []
  | (heading, siblings) :: rest =>
      if any_in keywords (lower (get_text heading))
      then match section_texts siblings with
           | [] => first_section keywords rest
           | section => section
           end
      else first_section keywords rest
  end.

Definition headings_of (soup : node) : list (node * list node) :=
  List.filter (fun '(n, _) => is_tag ["h2"; "h3"; "h4"; "strong"] n) (with_next_siblings soup).

(** [for selector in bio_selectors: bio_element = soup.select_one(selector) ...] *)
Fixpoint first_bio_element (selectors : list string) (soup : node) : option node :=
  match selectors with
  | [] => None
  | c :: rest =>
      match select None c soup with
      | bio_element :: _ => Some bio_element
      | [] => first_bio_element rest soup
      end
  end.

(** The line feed, and ['\n\n'.join(paragraphs)]. *)
Definition LF : string := String (ascii_of_nat 10) EmptyString.

Fixpoint join (sep : string) (l : list string) : string :=
  match l with
  | [] => EmptyString
  | [x] => x
  | x :: l' => x +:+ sep +:+ join sep l'
  end.

Definition long_paragraphs (soup : node) : list string :=
  List.filter (fun text => (100 <? String.length text)%nat)
              (map (fun p => strip (get_text p)) (find_all (is_tag ["p"]) soup)).

(** [bio_data[k] = v] when there is a [v]. *)
Definition set_if (k : string) (v : option bioval) (d : gmap string bioval)
  : gmap string bioval :=
  match v with
  | Some v => <[k := v]> d
  | None => d
  end.

Definition items_if_any (l : list string) : option bioval :=
  match l with
  | [] => None
  | _ :: _ => Some (BItems l)
  end.

Definition extract_coach_bio_bs4 (BeautifulSoup : string -> node) (html_content : string)
           (coach_name : string) (school_name : option string) : gmap string bioval :=
  let soup := BeautifulSoup html_content in
  let bio :=
    match first_bio_element bio_selectors soup with
    | Some bio_element => Some (BText (strip (get_text bio_element)))
    | None =>
        match long_paragraphs soup with
        | [] => None
        | paragraphs => Some (BText (join (LF +:+ LF) paragraphs))
        end
    end in
  let education := first_section education_keywords (headings_of soup) in
  let experience := first_section experience_keywords (headings_of soup) in
  let email :=
    match find mailto_anchor soup with
    | Some email_element => (fun h => BText (replace "mailto:" "" h)) <$> get "href" email_element
    | None => None
    end in
  let phone :=
    match find tel_anchor soup with
    | Some phone_element => (fun h => BText (replace "tel:" "" h)) <$> get "href" phone_element
    | None => None
    end in
  set_if "phone" phone
    (set_if "email" email
       (set_if "experience" (items_if_any experience)
          (set_if "education" (items_if_any education)
             (set_if "bio" bio ∅)))).

(** ** [find_athletics_url] *)







Section MoreOfTheScraper.

Variable urljoin : string -> string -> string.
Variable BeautifulSoup : string -> node.
Variable AIParser : string -> string -> result unit.
Variable net : network.
(** [response.url] of the answer to a request: the URL after redirects. *)
Variable final_url : trace -> string -> string.


(** ** [scrape_coaches_from_roster_url] *)



End MoreOfTheScraper.


(** ** [find_football_link] *)

(** Keyword tables of [find_football_link]. *)
Module FootballLink.

Definition keywords : list string :=
  ["football"; "football program"; "fball"; "football team"; "football home"].

Definition negative_keywords0 : list string :=
  ["soccer"; "baseball"; "basketball"; "volleyball"; "softball"; "lacrosse";
   "tennis"; "golf"; "swimming"; "diving"; "track"; "field"; "cross country";
   "wrestling"; "hockey"; "rowing"; "gymnastics"; "rugby"; "bowling"; "fencing";
   "water polo"; "beach volleyball"; "field hockey"; "skiing"; "equestrian";
   "tickets"; "season tickets"; "ticket office"; "box office"; "purchase tickets";
   "buy tickets"; "ticket sales"; "ticket information"; "seasontickets";
   "podcast"; "Product"; "shop"; "store"; "tickets"; "team store"; "merchandise";
   "php"; "women"; "vice"; "hype"; "season"; "schedule"; "news"; "article";
   "output"; "sb"].

Definition sport_abbreviations : list string :=
  ["bsb"; "mbkb"; "wbkb"; "mxc"; "wxc"; "mlax"; "wlax"; "msoc"; "wsoc"; "sball";
   "mswimdive"; "wswimdive"; "mten"; "wten"; "wvball"; "w-baskbl"; "m-xc"; "w-xc";
   "w-softbl"; "m-baskbl"; "m-basebl"; "w-volley"; "c-swim"; "social"].

Definition negative_keywords : list string := negative_keywords0 ++ sport_abbreviations.

Definition nav_words : list string := ["menu"; "nav"; "dropdown"; "sports"; "athletics"].

End FootballLink.

(** [\w], on the ASCII range. *)
Definition is_word_char (c : ascii) : bool :=
  is_upper c || is_lower c || is_digit c || Ascii.eqb c "_".

(** What is left of [s] after [p], letter case aside. *)
Fixpoint strip_prefix_ci (p s : string) : option string :=
  match p, s with
  | EmptyString, _ => Some s
  | String _ _, EmptyString => None
  | String a p', String b s' =>
      if Ascii.eqb (lower_char a) (lower_char b) then strip_prefix_ci p' s' else None
  end.

(** [\b] after a word character: the end, or no word character next. *)
Definition word_end (s : string) : bool :=
  match s with
  | EmptyString => true
  | String c _ => negb (is_word_char c)
  end.

(** [(home|team|program)\b] *)
Definition football_suffix (s : string) : bool :=
  existsb (fun w => match strip_prefix_ci w s with
                    | Some rest => word_end rest
                    | None => false
                    end) ["home"; "team"; "program"].

(** [(football|fball|football[\s\-]?home|football[\s\-]?team|football[\s\-]?program)\b]
    at the head of [s], letter case ignored. *)
Definition football_word (s : string) : bool :=
  match strip_prefix_ci "football" s with
  | Some rest =>
      word_end rest || football_suffix rest
      || match rest with
         | String c rest' => (is_space c || Ascii.eqb c "-") && football_suffix rest'
         | EmptyString => false
         end
  | None => false
  end
  || match strip_prefix_ci "fball" s with
     | Some rest => word_end rest
     | None => false
     end.

(** [football_pattern.search(s)]: the word at some position that a
    non-word character, or nothing, precedes. *)
Fixpoint football_search (after_word_char : bool) (s : string) : bool :=
  (negb after_word_char && football_word s)
  || match s with
     | EmptyString => false
     | String c s' => football_search (is_word_char c) s'
     end.

Definition football_pattern_search (s : string) : bool := football_search false s.

(** [if url.startswith('//'): url = url.replace('//', '')], then the
    scheme as in [add_scheme]. *)
Definition normalize_url (url : string) : string :=
  add_scheme (if startswith "//" url then replace "//" "" url else url).

Section FootballLinkBody.

Variable urljoin : string -> string -> string.
Variable BeautifulSoup : string -> node.
Variable net : network.
Variable final_url : trace -> string -> string.
(** The function itself, for the call it makes on a skip link. *)
Variable self_call : string -> M string.

(** [requests.get(url, timeout=...)] with the [response.url] of the answer. *)
Definition requests_get_url (url : string) (timeout : Z) : M (response * string) :=
  fun tr =>
    match net tr url with
    | Some r => (Ok (r, final_url tr url), tr ++ [RequestsGet url timeout])
    | None => (Raise RequestException, tr ++ [RequestsGet url timeout])
    end.

Definition football_program_link (url : string) (link : node) : option string :=
  match get "href" link with
  | Some (String _ _ as href) =>
      let text := lower (get_text link) in
      if mentions FootballLink.negative_keywords text href then None
      else if mentions FootballLink.keywords text href
           then Some (urljoin url href)
           else None
  | _ => None
  end.

(** [potential_links]: those of the navigation regions; when these are
    none and the page text holds the football pattern, those of the
    whole page. *)
Definition football_program_links (url : string) (page : response) : list string :=
  let soup := BeautifulSoup (text page) in
  match omap (football_program_link url) (nav_links FootballLink.nav_words soup) with
  | [] =>
      if football_pattern_search (text page)
      then omap (football_program_link url) (all_links soup)
      else []
  | in_nav => in_nav
  end.

Definition skip_anchor (n : node) : bool := is_tag ["a"] n && href_contains "skip=true" n.

Definition find_football_link_body (url : string) : M string :=
  try_except
    (let url := normalize_url url in
     let* answer := requests_get_url url 60 in
     let response := fst answer in
     let final := snd answer in
     let* _ := raise_for_status response in
     let soup := BeautifulSoup (text response) in
     let url := final in
     match find skip_anchor soup with
     | Some skip_link =>
         match get "href" skip_link with
         | Some href => self_call (urljoin url href)
         | None => raise KeyError
         end
     | None =>
         match football_program_links url response with
         | first :: _ => ret (split_head "?" first)
         | [] =>
             let* simulated_link := get_simulate_football_link urljoin net url in
             match simulated_link with
             | Some (String _ _ as link) => ret link
             | _ => ret "Not found"
             end
         end
     end)
    any_Exception (fun _ => ret "Not found").

End FootballLinkBody.

(** The function, closed on itself.  [depth] is the number of calls of
    itself the interpreter still lets it make: a call past the
    recursion limit raises inside the [try] of the innermost call, which
    then returns "Not found". *)
Fixpoint find_football_link (urljoin : string -> string -> string)
         (BeautifulSoup : string -> node) (net : network)
         (final_url : trace -> string -> string) (depth : nat) (url : string) : M string :=
  find_football_link_body urljoin BeautifulSoup net final_url
    match depth with
    | O => fun _ => ret "Not found"
    | S depth' => find_football_link urljoin BeautifulSoup net final_url depth'
    end
    url.

(** ** [process_school], of [child_scraping_dag_v2.py] *)

(** What the task raises of its own. *)
Inductive dag_error : Type :=
| ValueError (message : string)
| AirflowFailException (message : string).

Definition required_fields : list string :=
  ["ncaa_institution_id"; "school_name"; "athletics_url"].

(** [[field for field in required_fields if not school_data.get(field)]] *)
Definition missing_fields (school : dict) : list string :=
  List.filter (fun field => negb (pytruthy (dict_get school field))) required_fields.

(** What the task leaves when it returns: [result], [school_data] with
    the normalised URL in it, and the row appended to the CSV file when
    the export went through. *)
Record processed : Type :=
  { result_of : dict; school_data_of : dict; csv_row_of : option dict }.

Section ProcessSchool.

Variable urljoin : string -> string -> string.
Variable BeautifulSoup : string -> node.
Variable net : network.
Variable final_url : trace -> string -> string.
Variable depth : nat.
(** The body of the [try] that appends a row to [schools_data.csv]:
    whether it ended without an exception. *)
Variable append_csv : dict -> bool.
(** [datetime.now().strftime("%Y-%m-%d %H:%M:%S")] *)
Variable now : string.

(** The row for the CSV file. *)
Definition csv_row (school : dict) (school_id school_name : pyval)
           (athletics_url football_url roster_url : string) : dict :=
  {[ "school_id" := school_id;
     "school_name" := school_name;
     "athletics_url" := PStr athletics_url;
     "football_url" := PStr football_url;
     "roster_url" := PStr roster_url;
     "conference" := dict_get_or school "conference" (PStr "");
     "division" := dict_get_or school "division" (PStr "");
     "timestamp" := PStr now ]}.

(** [inl] is an exception the task raises itself. *)
Definition process_school (school : dict) : M (dag_error + processed) :=
  let school_name := dict_get_or school "school_name" (PStr "Unknown School") in
  let school_id := dict_get_or school "ncaa_institution_id" (PStr "Unknown ID") in
  match missing_fields school with
  | (_ :: _) as missing =>
      ret (inl (ValueError ("Missing required fields for " +:+ pystr school_name
                            +:+ ": " +:+ join ", " missing)))
  | [] =>
      match dict_get school "athletics_url" with
      | PStr url =>
          let athletics_url := normalize_url url in
          let school' := <["athletics_url" := PStr athletics_url]> school in
          let* football_url :=
            find_football_link urljoin BeautifulSoup net final_url depth athletics_url in
          if String.eqb football_url "Not found"
          then ret (inl (AirflowFailException
                           ("Could not find football program page for " +:+ pystr school_name)))
          else
            let* roster_url :=
              find_coaches_or_roster_link urljoin BeautifulSoup net football_url in
            if String.eqb roster_url "Not found"
            then ret (inl (AirflowFailException
                             ("Could not find coaches page for " +:+ pystr school_name)))
            else
              let result : dict :=
                {[ "school_name" := school_name;
                   "school_id" := school_id;
                   "football_url" := PStr football_url;
                   "roster_url" := PStr roster_url ]} in
              let row :=
                csv_row school' school_id school_name athletics_url football_url roster_url in
              ret (inr {| result_of := result;
                          school_data_of := school';
                          csv_row_of := if append_csv row then Some row else None |})
      | _ => raise AttributeError
      end
  end.

End ProcessSchool.

(** The loop at the end of the module: the [school_data] of a row of
    [prepopulated_urls.csv], [None] for a row it skips. *)
Definition school_data_of_row (school : dict) : option dict :=
  let school_id := pystr (dict_get_or school "orgId" (PStr "")) in
  let school_name := dict_get_or school "school_name" (PStr "") in
  if negb (truthy school_id) || negb (pytruthy school_name) then None
  else
    Some ({[ "athletics_url" := dict_get_or school "athletic_web_url" (PStr "");
             "conference" := dict_get_or school "conference" (PStr "");
             "division" := dict_get_or school "division" (PStr "");
             "ncaa_institution_id" := PStr school_id;
             "school_name" := school_name;
             "source" := PStr "api_trigger";
             "football_program_url" := dict_get_or school "football_program_url" (PStr "");
             "roster_url" := dict_get_or school "roster_url" (PStr "");
             "coaching_staff_url" := dict_get_or school "coaching_staff_url" (PStr "") ]} : dict).


(** ** More vocabulary *)

(** The requests of a trace. *)
Definition is_get (e : event) : bool :=
  match e with
  | SessionGet _ _ | RequestsGet _ _ => true
  | _ => false
  end.

Definition count_gets (tr : trace) : nat := length (List.filter is_get tr).

(** What [get_page] on [url] may add to the trace. *)
Definition get_page_event (url : string) (e : event) : Prop :=
  e = SleepUniform 1 3 \/ e = SessionGet url 30
  \/ exists attempt : nat, e = Sleep (2 ^ Z.of_nat attempt).

(** Some keyword of [keywords] occurs in the lower-cased [href] or
    text of [link]. *)
Definition names_keyword (keywords : list string) (link : node) : Prop :=
  exists keyword : string,
    In keyword keywords
    /\ (str_in keyword (lower (href_of link)) = true
        \/ str_in keyword (lower (get_text link)) = true).

(** The three probes. *)
Inductive probe_kind : Type := FootballProbe | CoachesProbe | RosterProbe.

Definition simulate (k : probe_kind)
  : (string -> string -> string) -> network -> string -> M (option string) :=
  match k with
  | FootballProbe => get_simulate_football_link
  | CoachesProbe => get_simulate_coaches_link
  | RosterProbe => get_simulate_roster_link
  end.

Definition simulate_patterns (k : probe_kind) : list string :=
  match k with
  | FootballProbe => football_patterns
  | CoachesProbe => coaches_patterns
  | RosterProbe => roster_patterns
  end.

Definition simulate_keywords (k : probe_kind) : list string :=
  match k with
  | FootballProbe => football_probe_keywords
  | CoachesProbe => coaches_probe_keywords
  | RosterProbe => roster_probe_keywords
  end.




(** ** More of the concrete site *)

Module Campus.

(** A row of a sidearm table whose name cell has an anchor without
    [href]. *)
Definition anchor_row : node :=
  Tag "tr" ["sidearm-coaches-coach"] []
    [Tag "td" [] [] [];
     Tag "td" [] [] [Tag "a" [] [("name", "roe")] [NavigableString "Sam Roe"]];
     Tag "td" [] [] [NavigableString "Line Coach"]].

(** A profile page with two sections. *)
Definition profile_html : string :=
  "<h3>Education</h3><p>B.A., Example University</p><h3>Family</h3><p>Two children</p>".

Definition profile_soup : node :=
  Tag "[document]" [] []
    [Tag "h3" [] [] [NavigableString "Education"];
     Tag "p" [] [] [NavigableString "B.A., Example University"];
     Tag "h3" [] [] [NavigableString "Family"];
     Tag "p" [] [] [NavigableString "Two children"]].

Definition BeautifulSoup (html : string) : node :=
  if String.eqb html profile_html then profile_soup else Site.BeautifulSoup html.

(** A site that redirects nowhere. *)
Definition final_url : trace -> string -> string := fun _ url => url.

(** A CSV file that can be written, and the time of the run. *)
Definition append_csv : dict -> bool := fun _ => true.

Definition now : string := "2025-01-01 12:00:00".

(** Two rows of [prepopulated_urls.csv], the second without a site, and
    the [school_data] the loop makes of each. *)
Definition row : dict :=
  {[ "orgId" := PStr "42";
     "school_name" := PStr "Example University";
     "athletic_web_url" := PStr "//x.edu";
     "division" := PStr "FBS";
     "conference" := PStr "Example Conference" ]}.

Definition school_data : dict :=
  {[ "athletics_url" := PStr "//x.edu";
     "conference" := PStr "Example Conference";
     "division" := PStr "FBS";
     "ncaa_institution_id" := PStr "42";
     "school_name" := PStr "Example University";
     "source" := PStr "api_trigger";
     "football_program_url" := PStr "";
     "roster_url" := PStr "";
     "coaching_staff_url" := PStr "" ]}.

Definition row_without_site : dict :=
  {[ "orgId" := PStr "7"; "school_name" := PStr "No Site College" ]}.

Definition school_data_without_site : dict :=
  {[ "athletics_url" := PStr "";
     "conference" := PStr "";
     "division" := PStr "";
     "ncaa_institution_id" := PStr "7";
     "school_name" := PStr "No Site College";
     "source" := PStr "api_trigger";
     "football_program_url" := PStr "";
     "roster_url" := PStr "";
     "coaching_staff_url" := PStr "" ]}.

(** What [process_school] leaves for the first row. *)
Definition processed_school : processed :=
  {| result_of :=
       {[ "school_name" := PStr "Example University";
          "school_id" := PStr "42";
          "football_url" := PStr "https://x.edu/sports/football";
          "roster_url" := PStr "https://x.edu/sports/football/coaches" ]};
     school_data_of := <["athletics_url" := PStr "https://x.edu"]> school_data;
     csv_row_of :=
       Some {[ "school_id" := PStr "42";
               "school_name" := PStr "Example University";
               "athletics_url" := PStr "https://x.edu";
               "football_url" := PStr "https://x.edu/sports/football";
               "roster_url" := PStr "https://x.edu/sports/football/coaches";
               "conference" := PStr "Example Conference";
               "division" := PStr "FBS";
               "timestamp" := PStr now ]} |}.

End Campus.

(** * Properties *)

(** ** Python strings *)

Example lower_ex : lower "Soccer ROSTER" = "soccer roster".
Proof. reflexivity. Qed.

Example str_in_ex : str_in "m-soc" "/m-soc/roster" = true /\ str_in "coach" "/roster" = false.
Proof. split; reflexivity. Qed.

Example strip_ex : strip "  Jane Doe  " = "Jane Doe" /\ strip "   " = "".
Proof. split; reflexivity. Qed.

Example replace_ex : replace "mailto:" "" "mailto:jd@x.edu" = "jd@x.edu".
Proof. reflexivity. Qed.

Example split_head_ex : split_head "?" "https://x.edu/roster?path=fb" = "https://x.edu/roster".
Proof. reflexivity. Qed.

Example title_ex : title "basketball" = "Basketball".
Proof. reflexivity. Qed.

Example date_ex :
re_search_date "/" "/news/2019/7/23/coaches.aspx" = true
/\ re_search_date "-" "/news/2019-07-23/coaches" = true
/\ re_search_date "/" "/sports/football/coaches" = false
/\ re_search_date "/" "/news/20190/7/23/x" = false.
Proof. repeat split; reflexivity. Qed.

(** ** The extractor *)

Section ExtractorFacts.

Variable urljoin : string -> string -> string.
Variable BeautifulSoup : string -> node.

Lemma sidearm_row_has_name (base_url : string) (row : node) (coach : dict) :
  sidearm_row urljoin base_url row = Ok (Some coach) -> has_name coach.
Proof.
  unfold sidearm_row.
  destruct (find_all (is_tag ["td"; "th"]) row !! 1%nat) as [name_cell|]; [|discriminate].
  destruct (find (is_tag ["a"]) name_cell) as [name_link|].
  - destruct (get "href" name_link) as [h|]; [|discriminate].
    destruct (get_text_strip name_link) as [|a s] eqn:E; [discriminate|].
    intros [= <-]. exists (String a s). split; [|discriminate].
    apply lookup_insert_eq.
  - destruct (get_text_strip name_cell) as [|a s] eqn:E; [discriminate|].
    intros [= <-]. exists (String a s). split; [|discriminate].
    apply lookup_insert_eq.
Qed.

Lemma sidearm_rows_have_names (base_url : string) (rows : list node) :
  Forall has_name (fst (sidearm_rows urljoin base_url rows)).
Proof.
  induction rows as [|row rest IH]; simpl; [constructor|].
  destruct (sidearm_rows urljoin base_url rest) as [coaches logs]; simpl in IH.
  destruct (sidearm_row urljoin base_url row) as [[coach|]|e] eqn:E; simpl; auto.
  constructor; [eapply sidearm_row_has_name; eauto | assumption].
Qed.

Lemma sidearm_rows_only_warn (base_url : string) (rows : list node) :
  forallb is_row_warning (snd (sidearm_rows urljoin base_url rows)) = true.
Proof.
  induction rows as [|row rest IH]; simpl; [reflexivity|].
  destruct (sidearm_rows urljoin base_url rest) as [coaches logs]; simpl in IH.
  destruct (sidearm_row urljoin base_url row) as [[coach|]|e]; simpl; auto.
Qed.

Lemma coach_of_element_has_name (base_url : string) (element : node) (coach : dict) :
  coach_of_element urljoin base_url element = Some coach -> has_name coach.
Proof.
  unfold coach_of_element.
  set (name := match _ <$> find _ element with Some (String _ _) => _ | _ => _ end).
  destruct name as [[|a s]|]; try discriminate.
  intros [= <-]. exists (String a s). split; [|discriminate].
  apply lookup_insert_eq.
Qed.

Lemma container_strategy_has_names (soup : node) (base_url : string) :
  Forall has_name (fst (container_strategy urljoin soup base_url)).
Proof.
  unfold container_strategy.
  destruct (first_selector container_selectors soup) as [[sel elements]|]; simpl;
    apply List.Forall_forall; intros coach Hin;
    rewrite <- list_elem_of_In in Hin;
    apply list_elem_of_omap in Hin as (element & _ & Hc);
    eapply coach_of_element_has_name; eauto.
Qed.

(** C2.  Whatever the page and the base URL, every record the extractor
    returns has a [name] that is a non-empty string; this holds for the
    sidearm-table strategy, the selector strategy and the generic scan. *)
Theorem extract_names_nonempty (html_content base_url : string) :
  Forall has_name (fst (extract_coach_listings_bs4 urljoin BeautifulSoup html_content base_url)).
Proof.
  unfold extract_coach_listings_bs4, sidearm_strategy.
  pose proof (sidearm_rows_have_names base_url
    (sidearm_rows_of (BeautifulSoup html_content))) as Hs.
  destruct (sidearm_rows urljoin base_url _) as [[|c cs] logs]; simpl in *.
  - pose proof (container_strategy_has_names (BeautifulSoup html_content) base_url) as Hc.
    destruct (container_strategy urljoin _ base_url) as [cs' logs']; exact Hc.
  - exact Hs.
Qed.

(** C3.  When the sidearm-table strategy yields a record, the extractor
    returns that strategy's records and log and nothing else: the log
    holds row warnings only, no line of the selector strategy or of the
    generic scan. *)
Theorem sidearm_short_circuit (html_content base_url : string) :
  fst (sidearm_strategy urljoin (BeautifulSoup html_content) base_url) <> [] ->
  extract_coach_listings_bs4 urljoin BeautifulSoup html_content base_url
  = sidearm_strategy urljoin (BeautifulSoup html_content) base_url
  /\ forallb is_row_warning
       (snd (extract_coach_listings_bs4 urljoin BeautifulSoup html_content base_url)) = true.
Proof.
  intros Hne.
  assert (extract_coach_listings_bs4 urljoin BeautifulSoup html_content base_url
          = sidearm_strategy urljoin (BeautifulSoup html_content) base_url) as Heq.
  { unfold extract_coach_listings_bs4.
    destruct (sidearm_strategy urljoin (BeautifulSoup html_content) base_url)
      as [[|c cs] logs]; [contradiction Hne; reflexivity | reflexivity]. }
  split; [exact Heq|].
  rewrite Heq. apply sidearm_rows_only_warn.
Qed.

End ExtractorFacts.

(** ** The monad *)


Lemma total_bind {A B : Type} (m : M A) (f : A -> M B) :
  total m -> (forall a, total (f a)) -> total (bind m f).
Proof.
  intros Hm Hf tr. unfold bind.
  destruct (Hm tr) as (a & tr1 & ->). apply Hf.
Qed.





Lemma try_ok {A : Type} (body : M A) (catches : exn -> bool) (handler : exn -> M A)
      (tr tr1 : trace) (a : A) :
  body tr = (Ok a, tr1) -> try_except body catches handler tr = (Ok a, tr1).
Proof. intros E. unfold try_except. rewrite E. reflexivity. Qed.

(** ** [get_page] *)

Section FetchFacts.

Variable net : network.

(** One attempt, as the body of the loop performs it. *)
Lemma get_page_loop_step (url : string) (max_retries : Z) (attempt : nat)
      (rest : list nat) (tr : trace) :
  get_page_loop net url max_retries (attempt :: rest) tr =
  let tr1 := tr ++ [SleepUniform 1 3] in
  let tr2 := tr1 ++ [SessionGet url 30] in
  match net tr1 url with
  | Some r =>
      if attempt_fails (Some r)
      then if (Z.of_nat attempt =? max_retries - 1)%Z
           then (Ok None, tr2)
           else get_page_loop net url max_retries rest (tr2 ++ [Sleep (2 ^ Z.of_nat attempt)])
      else (Ok (Some (text r)), tr2)
  | None =>
      if (Z.of_nat attempt =? max_retries - 1)%Z
      then (Ok None, tr2)
      else get_page_loop net url max_retries rest (tr2 ++ [Sleep (2 ^ Z.of_nat attempt)])
  end.
Proof.
  cbn [get_page_loop].
  unfold bind at 1, try_except, bind, emit, session_get, raise_for_status, attempt_fails.
  cbn zeta.
  destruct (net (tr ++ [SleepUniform 1 3]) url) as [r|]; simpl.
  - destruct ((400 <=? status_code r)%Z && (status_code r <? 600)%Z); simpl.
    + destruct (Z.of_nat attempt =? max_retries - 1)%Z; reflexivity.
    + reflexivity.
  - destruct (Z.of_nat attempt =? max_retries - 1)%Z; reflexivity.
Qed.




End FetchFacts.


(** ** The probes *)

Section ProbeFacts.

Variable urljoin : string -> string -> string.
Variable net : network.

Lemma probe_loop_step (url : string) (keywords : list string) (pattern : string)
      (rest : list string) (tr : trace) :
  probe_loop urljoin net url keywords (pattern :: rest) tr =
  if probe_hit keywords (net tr (urljoin url pattern))
  then (Ok (Some (urljoin url pattern)), tr ++ [RequestsGet (urljoin url pattern) 5])
  else probe_loop urljoin net url keywords rest (tr ++ [RequestsGet (urljoin url pattern) 5]).
Proof.
  cbn [probe_loop]. unfold bind, try_except, requests_get, probe_hit. cbn zeta.
  destruct (net tr (urljoin url pattern)) as [r|]; simpl; [|reflexivity].
  destruct (status_code r =? 200)%Z; simpl; [|reflexivity].
  destruct (any_in keywords (lower (text r))); reflexivity.
Qed.

Lemma probe_loop_total (url : string) (keywords patterns : list string) :
  total (probe_loop urljoin net url keywords patterns).
Proof.
  induction patterns as [|pattern rest IH]; intros tr.
  - exists None, tr. reflexivity.
  - rewrite probe_loop_step.
    destruct (probe_hit keywords (net tr (urljoin url pattern))); [eauto | apply IH].
Qed.

Lemma probe_loop_misses (url : string) (keywords pre rest : list string) (tr : trace) :
  all_miss urljoin net keywords url pre tr = true ->
  probe_loop urljoin net url keywords (pre ++ rest) tr
  = probe_loop urljoin net url keywords rest (tr ++ probes urljoin url pre).
Proof.
  revert tr. induction pre as [|pattern pre IH]; intros tr Hmiss.
  - simpl. rewrite app_nil_r. reflexivity.
  - simpl in Hmiss. apply andb_prop in Hmiss as [Hp Hrest].
    apply negb_true_iff in Hp.
    rewrite <- app_comm_cons, probe_loop_step, Hp, (IH _ Hrest).
    cbn [probes map]. rewrite <- app_assoc. reflexivity.
Qed.

Lemma probe_is_probe_loop (c : category) (url : string) (tr : trace) :
  probe c urljoin net url tr
  = probe_loop urljoin net url (probe_keywords c) (probe_patterns c) tr.
Proof.
  destruct (probe_loop_total url (probe_keywords c) (probe_patterns c) tr) as (o & tr1 & E).
  rewrite E. destruct c; apply try_ok; exact E.
Qed.

Lemma probe_total (c : category) (url : string) : total (probe c urljoin net url).
Proof. intros tr. rewrite probe_is_probe_loop. apply probe_loop_total. Qed.

(** C7.  For either category the probe walks its suffixes in their
    fixed order.  When the suffixes before [pattern] all miss (a network
    error counts as a miss, and the walk goes on) and [pattern] gets
    status 200 with a keyword in its lower-cased body, the probe returns
    the URL of [pattern] and requests nothing after it; when every
    suffix misses it returns [None]. *)
Theorem probe_first_success (c : category) (url : string) (tr : trace) :
  (forall (pre : list string) (pattern : string) (post : list string),
      probe_patterns c = pre ++ pattern :: post ->
      all_miss urljoin net (probe_keywords c) url pre tr = true ->
      probe_hit (probe_keywords c) (net (tr ++ probes urljoin url pre) (urljoin url pattern))
      = true ->
      probe c urljoin net url tr
      = (Ok (Some (urljoin url pattern)), tr ++ probes urljoin url (pre ++ [pattern])))
  /\ (all_miss urljoin net (probe_keywords c) url (probe_patterns c) tr = true ->
      probe c urljoin net url tr
      = (Ok None, tr ++ probes urljoin url (probe_patterns c))).
Proof.
  split.
  - intros pre pattern post Hsplit Hmiss Hhit.
    rewrite probe_is_probe_loop, Hsplit, (probe_loop_misses _ _ _ _ _ Hmiss).
    rewrite probe_loop_step, Hhit.
    unfold probes. rewrite map_app, app_assoc. reflexivity.
  - intros Hmiss.
    rewrite probe_is_probe_loop.
    rewrite <- (app_nil_r (probe_patterns c)) at 1.
    rewrite (probe_loop_misses _ _ _ _ _ Hmiss). reflexivity.
Qed.

End ProbeFacts.

(** ** Markup and keyword facts *)

Lemma descendants_trans (soup m n : node) :
  In m (descendants soup) -> In n (descendants m) -> In n (descendants soup).
Proof.
  revert m n. induction soup as [s|name classes attrs contents IH] using node_ind';
    intros m n Hm Hn; [contradiction|].
  cbn [descendants] in *. apply in_flat_map in Hm as (k & Hk & Hmk).
  apply in_flat_map. exists k. split; [exact Hk|].
  destruct Hmk as [<-|Hmk]; [right; exact Hn|].
  right. rewrite List.Forall_forall in IH. exact (IH k Hk m n Hmk Hn).
Qed.

Lemma nav_links_all_links (words : list string) (soup link : node) :
  In link (nav_links words soup) -> In link (all_links soup).
Proof.
  unfold nav_links, all_links, nav_elements, find_all. intros Hin.
  apply in_flat_map in Hin as (navel & Hnav & Hl).
  apply filter_In in Hnav as [Hnav _]. apply filter_In in Hl as [Hl Ha].
  apply filter_In. split; [|exact Ha].
  eapply descendants_trans; eauto.
Qed.

Lemma lower_char_idemp (c : ascii) : lower_char (lower_char c) = lower_char c.
Proof. destruct c as [[] [] [] [] [] [] [] []]; reflexivity. Qed.

Lemma lower_idemp (s : string) : lower (lower s) = lower s.
Proof. induction s as [|c s IH]; simpl; [reflexivity|]. rewrite lower_char_idemp, IH. reflexivity. Qed.

Lemma re_search_date_app (sep : ascii) (pre s : string) :
  re_search_date sep s = true -> re_search_date sep (pre +:+ s) = true.
Proof.
  intros H. induction pre as [|c pre IH]; [exact H|].
  change (String c pre +:+ s) with (String c (pre +:+ s)).
  cbn [re_search_date]. rewrite IH. apply orb_true_r.
Qed.

Lemma re_search_date_head (sep : ascii) (s : string) :
  date_at sep s = true -> re_search_date sep s = true.
Proof. intros H. destruct s; cbn [re_search_date]; rewrite H; reflexivity. Qed.

Lemma lit_then_head (a : ascii) (k : string -> bool) (s : string) :
  k s = true -> lit_then a k (String a s) = true.
Proof. intros H. cbn [lit_then]. rewrite Ascii.eqb_refl, H. reflexivity. Qed.

Lemma digits_then_head (n : nat) (k : string -> bool) (digits : list ascii) (s : string) :
  length digits = n -> forallb is_digit digits = true -> k s = true ->
  digits_then n k (digits_before digits s) = true.
Proof.
  revert n. induction digits as [|d digits IH]; intros n Hlen Hd Hk.
  - subst n. exact Hk.
  - subst n. cbn [forallb] in Hd. apply andb_prop in Hd as [Hd Hrest].
    change (is_digit d && digits_then (length digits) k (digits_before digits s) = true).
    rewrite Hd, (IH (length digits) eq_refl Hrest Hk). reflexivity.
Qed.

Lemma one_or_two_digits_then_head (k : string -> bool) (digits : list ascii) (s : string) :
  length digits = 1%nat \/ length digits = 2%nat ->
  forallb is_digit digits = true -> k s = true ->
  one_or_two_digits_then k (digits_before digits s) = true.
Proof.
  intros [Hlen|Hlen] Hd Hk; unfold one_or_two_digits_then.
  - rewrite (digits_then_head 1 k digits s Hlen Hd Hk). apply orb_true_r.
  - rewrite (digits_then_head 2 k digits s Hlen Hd Hk). reflexivity.
Qed.

(** The matcher finds every date path. *)
Lemma date_path_found (sep : ascii) (href : string) :
  date_path sep href -> re_search_date sep href = true.
Proof.
  intros (pre & year & month & day & post & -> & Hy & Hm & Hd & Hdigits).
  rewrite !forallb_app in Hdigits.
  apply andb_prop in Hdigits as [Hyd Hdigits].
  apply andb_prop in Hdigits as [Hmd Hdd].
  apply re_search_date_app, re_search_date_head. unfold date_at.
  apply lit_then_head, (digits_then_head 4); [exact Hy | exact Hyd |].
  apply lit_then_head, one_or_two_digits_then_head; [exact Hm | exact Hmd |].
  apply lit_then_head, one_or_two_digits_then_head; [exact Hd | exact Hdd |].
  apply lit_then_head. reflexivity.
Qed.

Lemma negative_keywords_lowercase (keyword : string) :
  In keyword CoachesOrRosterLink.negative_keywords -> lower keyword = keyword.
Proof.
  intros Hin.
  assert (forallb (fun k => String.eqb (lower k) k) CoachesOrRosterLink.negative_keywords = true)
    as Hall by (vm_compute; reflexivity).
  rewrite forallb_forall in Hall. apply String.eqb_eq, Hall, Hin.
Qed.

Lemma negative_mentions (link : node) :
  negative link ->
  mentions CoachesOrRosterLink.negative_keywords (lower (get_text link)) (href_of link) = true.
Proof.
  intros (keyword & Hin & Hc). unfold mentions. apply existsb_exists.
  exists keyword. split; [exact Hin|].
  unfold contains_ci in Hc. rewrite (negative_keywords_lowercase _ Hin) in Hc.
  rewrite lower_idemp. apply orb_true_iff.
  destruct Hc as [Hc|Hc]; [right|left]; exact Hc.
Qed.

Lemma mentions_negative (link : node) :
  mentions CoachesOrRosterLink.negative_keywords (lower (get_text link)) (href_of link) = true ->
  negative link.
Proof.
  unfold mentions. intros H. apply existsb_exists in H as (keyword & Hin & Hc).
  exists keyword. split; [exact Hin|].
  unfold contains_ci. rewrite (negative_keywords_lowercase _ Hin).
  rewrite lower_idemp in Hc. apply orb_true_iff in Hc.
  destruct Hc as [Hc|Hc]; [right|left]; exact Hc.
Qed.

(** ** The link classifiers *)

Section ClassifierFacts.

Variable urljoin : string -> string -> string.
Variable BeautifulSoup : string -> node.
Variable net : network.

(** [find_coaches_or_roster_link], its control flow laid out. *)
Lemma find_coaches_or_roster_link_unfold (url : string) (tr : trace) :
  find_coaches_or_roster_link urljoin BeautifulSoup net url tr =
  let url' := add_scheme url in
  let tr1 := tr ++ [RequestsGet url' 60] in
  match net tr url' with
  | None => (Ok "Not found", tr1)
  | Some r =>
      if attempt_fails (Some r) then (Ok "Not found", tr1)
      else
        let found := classified_links urljoin url' (BeautifulSoup (text r)) in
        match filter_football (links_of Coaches found) with
        | chosen_link :: _ => (Ok chosen_link, tr1)
        | [] =>
            match get_simulate_coaches_link urljoin net url' tr1 with
            | (Ok (Some (String a s)), tr2) => (Ok (String a s), tr2)
            | (Ok _, tr2) =>
                match links_of Roster found with
                | first :: _ => (Ok (split_head "?" first), tr2)
                | [] =>
                    match get_simulate_roster_link urljoin net url' tr2 with
                    | (Ok (Some (String a s)), tr3) => (Ok (String a s), tr3)
                    | (_, tr3) => (Ok "Not found", tr3)
                    end
                end
            | (Raise _, tr2) => (Ok "Not found", tr2)
            end
        end
  end.
Proof.
  unfold find_coaches_or_roster_link, try_except at 1.
  unfold bind at 1, requests_get. cbn zeta.
  destruct (net tr (add_scheme url)) as [r|]; [|reflexivity].
  unfold bind at 1, raise_for_status, attempt_fails.
  destruct ((400 <=? status_code r)%Z && (status_code r <? 600)%Z); [reflexivity|].
  unfold ret at 1. unfold bind at 1.
  destruct (filter_football _) as [|chosen_link others]; [|reflexivity].
  unfold bind at 1.
  destruct (get_simulate_coaches_link urljoin net (add_scheme url) _)
    as [[[[|a s]|]|e] tr2]; try reflexivity.
  - unfold ret at 1.
    destruct (links_of Roster _) as [|first others]; [|reflexivity].
    unfold bind at 1.
    destruct (get_simulate_roster_link urljoin net (add_scheme url) tr2)
      as [[[[|a s]|]|e] tr3]; reflexivity.
  - unfold ret at 1.
    destruct (links_of Roster _) as [|first others]; [|reflexivity].
    unfold bind at 1.
    destruct (get_simulate_roster_link urljoin net (add_scheme url) tr2)
      as [[[[|a s]|]|e] tr3]; reflexivity.
Qed.

(** An excluded anchor is no candidate, whatever else it matches. *)
Lemma excluded_link_dropped (url : string) (link : node) :
  negative link \/ dated link -> coaches_or_roster_link urljoin url link = None.
Proof.
  intros Hex. unfold coaches_or_roster_link.
  destruct (get "href" link) as [[|a s]|] eqn:Eh; try reflexivity.
  assert (href_of link = String a s) as Hh by (unfold href_of; rewrite Eh; reflexivity).
  destruct Hex as [Hneg|Hdate].
  - apply negative_mentions in Hneg. rewrite Hh in Hneg. rewrite Hneg. reflexivity.
  - destruct (mentions CoachesOrRosterLink.negative_keywords _ _); [reflexivity|].
    unfold dated in Hdate. rewrite Hh in Hdate.
    destruct Hdate as [Hdate|Hdate]; apply date_path_found in Hdate; rewrite Hdate;
      [reflexivity | rewrite orb_true_r; reflexivity].
Qed.


Lemma links_of_In (c : category) (u : string) (l : list (category * string)) :
  In u (links_of c l) -> In (c, u) l.
Proof.
  unfold links_of. rewrite <- !list_elem_of_In. intros H.
  apply list_elem_of_omap in H as ([c' u'] & Hin & Heq).
  destruct c, c'; simplify_eq; exact Hin.
Qed.

Lemma filter_football_In (u : string) (l : list string) :
  In u (filter_football l) -> In u l.
Proof. unfold filter_football. intros H. apply filter_In in H as [H _]. exact H. Qed.



End ClassifierFacts.

Section ClassifierTheorems.

Variable urljoin : string -> string -> string.
Variable BeautifulSoup : string -> node.
Variable net : network.


(** [find_coaches_page] on a page it could fetch: the three-way choice. *)
Lemma find_coaches_page_selects (url : string) (tr tr1 : trace) (html : string) :
  get_page net (add_scheme url) 1 tr = (Ok (Some html), tr1) ->
  html <> "" ->
  let found := coaches_page_links urljoin (add_scheme url) (BeautifulSoup html) in
  find_coaches_page urljoin BeautifulSoup net url tr
  = (Ok match filter_football (links_of Coaches found) with
        | chosen_link :: _ => Some chosen_link
        | [] =>
            match links_of Roster found with
            | first :: _ => Some (split_head "?" first)
            | [] =>
                match links_of Coaches found with
                | chosen_link :: _ => Some chosen_link
                | [] => None
                end
            end
        end, tr1).
Proof.
  intros Hget Hne found.
  unfold find_coaches_page, try_except, bind. rewrite Hget.
  destruct html as [|a s]; [contradiction Hne; reflexivity|].
  fold found.
  destruct (filter_football (links_of Coaches found)); [|reflexivity].
  destruct (links_of Roster found); [|reflexivity].
  destruct (links_of Coaches found); reflexivity.
Qed.


(** C6 (amended).  On a page that could be fetched, a classified
    coaches candidate whose URL holds "football" or "coaches" is
    returned and no probe request is made.  Without one the coaches
    probe runs, also when roster candidates or other coaches candidates
    were classified, and a URL it finds is returned in their place; the
    roster probe runs only when, besides, no roster candidate was
    classified. *)
Theorem probe_when_no_football_link (url : string) (tr : trace) (r : response) :
  net tr (add_scheme url) = Some r ->
  attempt_fails (Some r) = false ->
  let found := classified_links urljoin (add_scheme url) (BeautifulSoup (text r)) in
  let tr1 := tr ++ [RequestsGet (add_scheme url) 60] in
  (forall chosen rest,
      filter_football (links_of Coaches found) = chosen :: rest ->
      find_coaches_or_roster_link urljoin BeautifulSoup net url tr = (Ok chosen, tr1))
  /\ (filter_football (links_of Coaches found) = [] ->
      exists (o : option string) (tr2 : trace),
        get_simulate_coaches_link urljoin net (add_scheme url) tr1 = (Ok o, tr2)
        /\ (forall a s,
               o = Some (String a s) ->
               find_coaches_or_roster_link urljoin BeautifulSoup net url tr
               = (Ok (String a s), tr2))
        /\ (forall first rest,
               o = None \/ o = Some "" ->
               links_of Roster found = first :: rest ->
               find_coaches_or_roster_link urljoin BeautifulSoup net url tr
               = (Ok (split_head "?" first), tr2))
        /\ (o = None \/ o = Some "" ->
            links_of Roster found = [] ->
            exists (o' : option string) (tr3 : trace),
              get_simulate_roster_link urljoin net (add_scheme url) tr2 = (Ok o', tr3)
              /\ find_coaches_or_roster_link urljoin BeautifulSoup net url tr
                 = (Ok match o' with
                       | Some (String a s) => String a s
                       | _ => "Not found"
                       end, tr3))).
Proof.
  intros Hnet Hok found tr1.
  pose proof (find_coaches_or_roster_link_unfold urljoin BeautifulSoup net url tr) as Hrun.
  cbn zeta in Hrun. rewrite Hnet, Hok in Hrun. fold found tr1 in Hrun.
  split.
  - intros chosen rest Hf. rewrite Hf in Hrun. exact Hrun.
  - intros Hf. rewrite Hf in Hrun.
    destruct (probe_total urljoin net Coaches (add_scheme url) tr1) as (o & tr2 & Hp).
    change (probe Coaches urljoin net) with (get_simulate_coaches_link urljoin net) in Hp.
    rewrite Hp in Hrun. exists o, tr2. split; [exact Hp|]. repeat split.
    + intros a s ->. exact Hrun.
    + intros first rest Ho Hr. rewrite Hr in Hrun.
      destruct Ho as [-> | ->]; exact Hrun.
    + intros Ho Hr. rewrite Hr in Hrun.
      destruct (probe_total urljoin net Roster (add_scheme url) tr2) as (o' & tr3 & Hq).
      change (probe Roster urljoin net) with (get_simulate_roster_link urljoin net) in Hq.
      rewrite Hq in Hrun. exists o', tr3. split; [exact Hq|].
      destruct Ho as [-> | ->]; destruct o' as [[|a s]|]; exact Hrun.
Qed.

End ClassifierTheorems.

(** ** The pipeline *)


Section PipelineFacts.

Variable urljoin : string -> string -> string.
Variable BeautifulSoup : string -> node.
Variable netloc : string -> string.
Variable AIParser : string -> string -> result unit.
Variable net : network.




(** When the first fetch of the athletics site fails, [scrape_school]
    returns the sentinel after that one attempt. *)
Lemma scrape_school_fetch_failure (school : dict) (url : string) (tr : trace) :
  school !! "athletics_url" = Some (PStr url) ->
  url <> "" ->
  netloc (add_scheme url) <> "" ->
  attempt_fails (net (tr ++ [SleepUniform 1 3]) (add_scheme url)) = true ->
  scrape_school urljoin BeautifulSoup netloc AIParser net school None None tr
  = (Ok {| school_data := school; coaches := []; success := false |},
     tr ++ [SleepUniform 1 3; SessionGet (add_scheme url) 30]).
Proof.
  intros Hurl Hne Hloc Hfail.
  assert (get_page net (add_scheme url) 1 tr
          = (Ok None, tr ++ [SleepUniform 1 3; SessionGet (add_scheme url) 30])) as Hget.
  { unfold get_page. change (seq 0 (Z.to_nat 1)) with [0%nat].
    rewrite get_page_loop_step. cbn zeta.
    destruct (net (tr ++ [SleepUniform 1 3]) (add_scheme url)) as [r|].
    - rewrite Hfail. simpl. rewrite <- app_assoc. reflexivity.
    - simpl. rewrite <- app_assoc. reflexivity. }
  assert (find_football_team_page urljoin BeautifulSoup netloc net (PStr url) tr
          = (Ok None, tr ++ [SleepUniform 1 3; SessionGet (add_scheme url) 30])) as Hfind.
  { unfold find_football_team_page, try_except.
    destruct (netloc (add_scheme url)) as [|a s]; [contradiction Hloc; reflexivity|].
    cbn [truthy negb]. unfold bind. rewrite Hget. reflexivity. }
  assert (dict_get_or school "athletics_url" (PStr "") = PStr url) as Hd.
  { unfold dict_get_or. rewrite Hurl. reflexivity. }
  unfold scrape_school. unfold bind at 1. unfold ret at 1.
  unfold bind at 1. unfold scrape_coach_roster. rewrite !Hd.
  destruct url as [|a s]; [contradiction Hne; reflexivity|].
  cbn [pytruthy truthy negb].
  unfold bind at 1. rewrite Hfind. reflexivity.
Qed.

(** Without coaches, whatever the stage that found none, the result is
    the sentinel. *)
Lemma scrape_school_no_coaches (school : dict) (tr tr1 : trace) :
  scrape_coach_roster urljoin BeautifulSoup netloc net school tr = (Ok [], tr1) ->
  scrape_school urljoin BeautifulSoup netloc AIParser net school None None tr
  = (Ok {| school_data := school; coaches := []; success := false |}, tr1).
Proof.
  intros Hroster. unfold scrape_school. unfold bind at 1. unfold ret at 1.
  unfold bind at 1. rewrite Hroster. reflexivity.
Qed.

(** A coach whose profile page is fetched makes [scrape_coach_bios]
    raise, whoever comes after. *)
Lemma scrape_coach_bios_raises (coach : dict) (rest : list dict) (school_name : pyval)
      (tr tr1 : trace) (html : string) :
  pytruthy (dict_get coach "profile_url") = true ->
  get_page net (pystr (dict_get coach "profile_url")) 1 tr = (Ok (Some html), tr1) ->
  html <> "" ->
  scrape_coach_bios net (coach :: rest) school_name tr = (Raise AttributeError, tr1).
Proof.
  intros Hurl Hget Hne. cbn [scrape_coach_bios]. rewrite Hurl. cbn [negb].
  unfold bind at 1. unfold bind at 1. rewrite Hget.
  destruct html as [|a s]; [contradiction Hne; reflexivity|]. reflexivity.
Qed.

End PipelineFacts.

(** ** The sidearm table of the specification's scenario *)

Section SidearmScenario.

Variable urljoin : string -> string -> string.
Variable BeautifulSoup : string -> node.


End SidearmScenario.

(** ** Runs on the concrete site *)

(** C1.  On a site whose coaches page lists a coach with a profile
    link, and whose profile page can be fetched, [scrape_school] raises
    [AttributeError]: [scrape_coach_bios] reads [self.ai_parser], which
    the constructor never sets. *)
Theorem scrape_school_raises :
  scrape_school Site.urljoin Site.BeautifulSoup Site.netloc Site.AIParser Site.net
                Site.school None None []
  = (Raise AttributeError,
     [SleepUniform 1 3; SessionGet "https://x.edu" 30;
      SleepUniform 1 3; SessionGet "https://x.edu/sports/football" 30;
      SleepUniform 1 3; SessionGet "https://x.edu/sports/football/coaches" 30;
      SleepUniform 1 3; SessionGet "https://x.edu/staff/jane-doe" 30]).
Proof. vm_compute. reflexivity. Qed.

(** The same school when no request gets through: the sentinel. *)
Example scrape_school_site_down :
  scrape_school Site.urljoin Site.BeautifulSoup Site.netloc Site.AIParser Site.net_down
                Site.school None None []
  = (Ok {| school_data := Site.school; coaches := []; success := false |},
     [SleepUniform 1 3; SessionGet "https://x.edu" 30]).
Proof.
  apply (scrape_school_fetch_failure Site.urljoin Site.BeautifulSoup Site.netloc
           Site.AIParser Site.net_down Site.school "https://x.edu" []);
    [reflexivity | discriminate | discriminate | reflexivity].
Qed.

Lemma sidearm_short_circuit_witness :
  fst (sidearm_strategy Site.urljoin (Site.BeautifulSoup Site.coaches_html)
                        "https://x.edu/sports/football/coaches") <> []
  /\ extract_coach_listings_bs4 Site.urljoin Site.BeautifulSoup Site.coaches_html
                                "https://x.edu/sports/football/coaches"
     = sidearm_strategy Site.urljoin (Site.BeautifulSoup Site.coaches_html)
                        "https://x.edu/sports/football/coaches".
Proof.
  assert (fst (sidearm_strategy Site.urljoin (Site.BeautifulSoup Site.coaches_html)
                                "https://x.edu/sports/football/coaches") <> []) as H.
  { vm_compute. discriminate. }
  split; [exact H|].
  exact (proj1 (sidearm_short_circuit Site.urljoin Site.BeautifulSoup Site.coaches_html
                  "https://x.edu/sports/football/coaches" H)).
Defined.


(** A coaches link under a dated news path is excluded. *)
Example dated_anchor_dropped :
  coaches_or_roster_link Site.urljoin "https://x.edu"
    (Tag "a" [] [("href", "/sports/2019/7/23/coaches.aspx")] [NavigableString "Coaches"])
  = None.
Proof.
  apply excluded_link_dropped. right. left.
  exists "/sports", ["2"; "0"; "1"; "9"]%char, ["7"]%char, ["2"; "3"]%char, "coaches.aspx".
  repeat split; auto.
Qed.

Example mixed_anchors_run :
  find_coaches_or_roster_link Site.urljoin Site.BeautifulSoup Site.net_mixed "x.edu" []
  = (Ok "https://x.edu/football/coaches", [RequestsGet "https://x.edu" 60]).
Proof. vm_compute. reflexivity. Qed.



(** C6 fails: the page has a roster candidate, yet the coaches probe
    runs and the URL it finds is returned. *)
Lemma probe_despite_roster_link :
  classified_links Site.urljoin "https://x.edu/sports/football"
                   (Site.BeautifulSoup Site.roster_html)
  = [(Roster, "https://x.edu/sports/football/roster?path=football")]
  /\ find_coaches_or_roster_link Site.urljoin Site.BeautifulSoup Site.net_roster
                                 "https://x.edu/sports/football" []
     = (Ok "https://x.edu/coaches",
        [RequestsGet "https://x.edu/sports/football" 60;
         RequestsGet "https://x.edu/coaches" 5]).
Proof. split; vm_compute; reflexivity. Qed.

Lemma probe_when_no_football_link_witness :
  find_coaches_or_roster_link Site.urljoin Site.BeautifulSoup Site.net_mixed "https://x.edu" []
  = (Ok "https://x.edu/football/coaches", [RequestsGet "https://x.edu" 60]).
Proof.
  pose proof (probe_when_no_football_link Site.urljoin Site.BeautifulSoup Site.net_mixed
                "https://x.edu" [] {| status_code := 200; text := Site.mixed_html |}) as H.
  cbv zeta in H.
  assert (Site.net_mixed [] (add_scheme "https://x.edu")
          = Some {| status_code := 200; text := Site.mixed_html |}) as Hnet by reflexivity.
  assert (attempt_fails (Some {| status_code := 200; text := Site.mixed_html |}) = false)
    as Hok by reflexivity.
  destruct (H Hnet Hok) as (H1 & _).
  apply (H1 "https://x.edu/football/coaches" []). reflexivity.
Defined.

(** The roster probe: [/roster] raises, [/team-roster] is a 404,
    [/football/roster] answers 200 with "ROSTER" in its body. *)
Lemma probe_first_success_witness :
  probe Roster Site.urljoin Site.net_probe "https://x.edu" []
  = (Ok (Some "https://x.edu/football/roster"),
     [RequestsGet "https://x.edu/roster" 5; RequestsGet "https://x.edu/team-roster" 5;
      RequestsGet "https://x.edu/football/roster" 5]).
Proof.
  apply (proj1 (probe_first_success Site.urljoin Site.net_probe Roster "https://x.edu" [])
               ["/roster"; "/team-roster"] "/football/roster"
               ["/football/team-roster"; "/sports/football/roster"; "/football/roster.html";
                "/football/team-roster.html"]); reflexivity.
Defined.





(** A record for which the extractor derived "Basketball" from the
    page text leaves [scrape_coach_roster] with "Football". *)
Example stamp_overwrites_sport :
  (fun coach : dict => coach !! "sport")
    <$> fst (extract_coach_listings_bs4 Site.urljoin Site.BeautifulSoup Site.card_html
                                        "https://x.edu/coaches")
  = [Some (PStr "Basketball")]
  /\ (fun coach : dict => stamp Site.school (PStr "Example University") coach !! "sport")
       <$> fst (extract_coach_listings_bs4 Site.urljoin Site.BeautifulSoup Site.card_html
                                           "https://x.edu/coaches")
     = [Some (PStr "Football")].
Proof. split; vm_compute; reflexivity. Qed.

(** * More properties *)

(** ** Traces *)

Lemma count_gets_app (tr1 tr2 : trace) :
  count_gets (tr1 ++ tr2) = (count_gets tr1 + count_gets tr2)%nat.
Proof. unfold count_gets. rewrite List.filter_app, length_app. reflexivity. Qed.

(** ** [get_page], whatever the network does *)

Lemma get_page_loop_bounded (net : network) (url : string) (max_retries : Z)
      (attempts : list nat) (tr : trace) :
  exists (o : option string) (ev : trace),
    get_page_loop net url max_retries attempts tr = (Ok o, tr ++ ev)
    /\ (count_gets ev <= length attempts)%nat
    /\ Forall (get_page_event url) ev.
Proof.
  revert tr. induction attempts as [|attempt rest IH]; intros tr.
  - exists None, []. rewrite app_nil_r. repeat split; [unfold count_gets; simpl; lia | constructor].
  - rewrite get_page_loop_step. cbn zeta.
    assert (Forall (get_page_event url) [SleepUniform 1 3; SessionGet url 30]) as Hev2.
    { constructor; [left; reflexivity|].
      constructor; [right; left; reflexivity | constructor]. }
    assert (exists (o : option string) (ev : trace),
               (if (Z.of_nat attempt =? max_retries - 1)%Z
                then (Ok None, (tr ++ [SleepUniform 1 3]) ++ [SessionGet url 30])
                else get_page_loop net url max_retries rest
                       (((tr ++ [SleepUniform 1 3]) ++ [SessionGet url 30])
                          ++ [Sleep (2 ^ Z.of_nat attempt)]))
               = (Ok o, tr ++ ev)
               /\ (count_gets ev <= length (attempt :: rest))%nat
               /\ Forall (get_page_event url) ev) as Hfail.
    { destruct (Z.of_nat attempt =? max_retries - 1)%Z.
      - exists None, [SleepUniform 1 3; SessionGet url 30].
        rewrite <- app_assoc. repeat split; [unfold count_gets; simpl; lia | exact Hev2].
      - destruct (IH (((tr ++ [SleepUniform 1 3]) ++ [SessionGet url 30])
                        ++ [Sleep (2 ^ Z.of_nat attempt)])) as (o & ev & Hrun & Hcount & Hev).
        exists o, ([SleepUniform 1 3; SessionGet url 30; Sleep (2 ^ Z.of_nat attempt)] ++ ev).
        rewrite Hrun. rewrite <- !app_assoc. repeat split.
        + rewrite count_gets_app. change (count_gets [_; _; _]) with 1%nat.
          cbn [length]. lia.
        + apply Forall_app. split; [|exact Hev].
          constructor; [left; reflexivity|].
          constructor; [right; left; reflexivity|].
          constructor; [right; right; exists attempt; reflexivity | constructor]. }
    destruct (net (tr ++ [SleepUniform 1 3]) url) as [r|]; [|exact Hfail].
    destruct (attempt_fails (Some r)); [exact Hfail|].
    exists (Some (text r)), [SleepUniform 1 3; SessionGet url 30].
    rewrite <- app_assoc. repeat split; [unfold count_gets; simpl; lia | exact Hev2].
Qed.

Lemma get_page_requests (net : network) (url : string) (max_retries : Z) (tr : trace) :
  exists (o : option string) (ev : trace),
    get_page net url max_retries tr = (Ok o, tr ++ ev)
    /\ (count_gets ev <= Z.to_nat max_retries)%nat.
Proof.
  destruct (get_page_loop_bounded net url max_retries (seq 0 (Z.to_nat max_retries)) tr)
    as (o & ev & Hrun & Hcount & _).
  rewrite length_seq in Hcount. exists o, ev. split; assumption.
Qed.


Lemma get_page_loop_body (net : network) (url : string) (max_retries : Z)
      (attempts : list nat) (tr tr' : trace) (body : string) :
  get_page_loop net url max_retries attempts tr = (Ok (Some body), tr') ->
  exists (tr0 : trace) (r : response),
    tr' = tr0 ++ [SessionGet url 30]
    /\ net tr0 url = Some r /\ text r = body /\ attempt_fails (Some r) = false.
Proof.
  revert tr. induction attempts as [|attempt rest IH]; intros tr Hrun.
  - discriminate Hrun.
  - rewrite get_page_loop_step in Hrun. cbn zeta in Hrun.
    destruct (net (tr ++ [SleepUniform 1 3]) url) as [r|] eqn:En.
    + destruct (attempt_fails (Some r)) eqn:Ef.
      * destruct (Z.of_nat attempt =? max_retries - 1)%Z; [discriminate Hrun|].
        exact (IH _ Hrun).
      * injection Hrun as <- <-. exists (tr ++ [SleepUniform 1 3]), r. auto.
    + destruct (Z.of_nat attempt =? max_retries - 1)%Z; [discriminate Hrun|].
      exact (IH _ Hrun).
Qed.

(** X2.  A page that [get_page] returns is the body of the answer to
    the last request it made, and that answer had no error status. *)
Theorem get_page_returns_last_answer (net : network) (url : string) (max_retries : Z)
        (tr tr' : trace) (body : string) :
  get_page net url max_retries tr = (Ok (Some body), tr') ->
  exists (tr0 : trace) (r : response),
    tr' = tr0 ++ [SessionGet url 30]
    /\ net tr0 url = Some r /\ text r = body
    /\ ((400 <=? status_code r)%Z && (status_code r <? 600)%Z) = false.
Proof. unfold get_page. apply get_page_loop_body. Qed.


(** ** The probes, whatever the network does *)

Lemma count_gets_probes (urljoin : string -> string -> string) (url : string)
      (patterns : list string) :
  count_gets (probes urljoin url patterns) = length patterns.
Proof.
  induction patterns as [|p l IH]; [reflexivity|].
  unfold count_gets in *. cbn [probes map List.filter is_get length]. rewrite <- IH.
  reflexivity.
Qed.

Lemma probe_loop_in_order (urljoin : string -> string -> string) (net : network)
      (url : string) (keywords patterns : list string) (tr : trace) :
  exists (o : option string) (k : nat),
    probe_loop urljoin net url keywords patterns tr
    = (Ok o, tr ++ probes urljoin url (take k patterns))
    /\ (k <= length patterns)%nat
    /\ match o with
       | None => k = length patterns
       | Some u =>
           exists pattern : string,
             (0 < k)%nat /\ patterns !! (k - 1)%nat = Some pattern /\ u = urljoin url pattern
             /\ probe_hit keywords
                  (net (tr ++ probes urljoin url (take (k - 1) patterns)) u) = true
       end.
Proof.
  revert tr. induction patterns as [|pattern rest IH]; intros tr.
  - exists None, 0%nat. cbn. rewrite app_nil_r. auto.
  - rewrite probe_loop_step.
    destruct (probe_hit keywords (net tr (urljoin url pattern))) eqn:Ehit.
    + exists (Some (urljoin url pattern)), 1%nat. cbn [take probes map length].
      split; [reflexivity|]. split; [lia|].
      exists pattern. cbn. rewrite app_nil_r. auto.
    + destruct (IH (tr ++ [RequestsGet (urljoin url pattern) 5])) as (o & k & Hrun & Hk & Ho).
      exists o, (S k). rewrite Hrun. cbn [take probes map length].
      rewrite <- app_assoc. split; [reflexivity|]. split; [lia|].
      destruct o as [u|]; [|lia].
      destruct Ho as (q & Hpos & Hq & Hu & Hhit).
      exists q. split; [lia|].
      destruct k as [|k']; [lia|].
      cbn [Nat.sub] in *. rewrite Nat.sub_0_r in *.
      split; [exact Hq|]. split; [exact Hu|].
      cbn [take probes map]. rewrite <- app_assoc in Hhit. exact Hhit.
Qed.

Lemma simulate_is_probe_loop (kind : probe_kind) (urljoin : string -> string -> string)
      (net : network) (url : string) (tr : trace) :
  simulate kind urljoin net url tr
  = probe_loop urljoin net url (simulate_keywords kind) (simulate_patterns kind) tr.
Proof.
  destruct (probe_loop_total urljoin net url (simulate_keywords kind)
              (simulate_patterns kind) tr) as (o & tr1 & E).
  rewrite E. destruct kind; apply try_ok; exact E.
Qed.


Lemma simulate_requests (kind : probe_kind) (urljoin : string -> string -> string)
      (net : network) (url : string) (tr : trace) :
  exists (o : option string) (ev : trace),
    simulate kind urljoin net url tr = (Ok o, tr ++ ev)
    /\ (count_gets ev <= length (simulate_patterns kind))%nat.
Proof.
  rewrite simulate_is_probe_loop.
  destruct (probe_loop_in_order urljoin net url (simulate_keywords kind)
              (simulate_patterns kind) tr) as (o & k & Hrun & Hk & _).
  exists o, (probes urljoin url (take k (simulate_patterns kind))).
  split; [exact Hrun|]. rewrite count_gets_probes, length_take. lia.
Qed.


(** ** The page finders of the pipeline *)

Lemma split_head_no_sep (sep : ascii) (s : string) :
  str_in (String sep EmptyString) (split_head sep s) = false.
Proof.
  induction s as [|c s IH]; [reflexivity|].
  cbn [split_head]. destruct (Ascii.eqb c sep) eqn:E; [reflexivity|].
  cbn [str_in startswith]. rewrite Ascii.eqb_sym, E, IH. reflexivity.
Qed.

Lemma mentions_names (keywords : list string) (link : node) (href : string) :
  href_of link = href ->
  mentions keywords (lower (get_text link)) href = true <-> names_keyword keywords link.
Proof.
  intros <-. unfold mentions, names_keyword. rewrite existsb_exists.
  split; intros (keyword & Hin & H); exists keyword; (split; [exact Hin|]).
  - rewrite lower_idemp in H. apply orb_true_iff in H.
    destruct H as [H|H]; [right|left]; exact H.
  - rewrite lower_idemp. apply orb_true_iff.
    destruct H as [H|H]; [right|left]; exact H.
Qed.

Lemma mentions_not_names (keywords : list string) (link : node) (href : string) :
  href_of link = href ->
  mentions keywords (lower (get_text link)) href = false -> ~ names_keyword keywords link.
Proof.
  intros Hh Hm Hn. apply (mentions_names keywords link href Hh) in Hn.
  rewrite Hn in Hm. discriminate Hm.
Qed.

Lemma omap_In {A B : Type} (f : A -> option B) (l : list A) (y : B) :
  In y (omap f l) -> exists x : A, In x l /\ f x = Some y.
Proof.
  rewrite <- list_elem_of_In. intros H.
  apply list_elem_of_omap in H as (x & Hx & Hf).
  exists x. rewrite <- list_elem_of_In. auto.
Qed.

Section FinderFacts.

Variable urljoin : string -> string -> string.
Variable BeautifulSoup : string -> node.
Variable netloc : string -> string.
Variable net : network.

Lemma football_link_origin (url : string) (link : node) (v : string) :
  football_link urljoin url link = Some v ->
  href_of link <> ""
  /\ names_keyword FootballTeamPage.keywords link
  /\ ~ names_keyword FootballTeamPage.negative_keywords link
  /\ v = urljoin url (href_of link).
Proof.
  unfold football_link.
  destruct (get "href" link) as [[|a s]|] eqn:Eh; try discriminate.
  assert (href_of link = String a s) as Hh by (unfold href_of; rewrite Eh; reflexivity).
  destruct (mentions FootballTeamPage.negative_keywords _ _) eqn:En; [discriminate|].
  destruct (mentions FootballTeamPage.keywords _ _) eqn:Ek; [|discriminate].
  intros [= <-]. rewrite Hh. split; [discriminate|].
  split; [apply (mentions_names _ _ _ Hh); exact Ek|].
  split; [apply (mentions_not_names _ _ _ Hh); exact En | reflexivity].
Qed.

Lemma find_football_team_page_run (athletics_url : pyval) (tr : trace) :
  exists (o : option string) (ev : trace),
    find_football_team_page urljoin BeautifulSoup netloc net athletics_url tr
    = (Ok o, tr ++ ev)
    /\ (count_gets ev <= 1)%nat
    /\ forall u : string,
        o = Some u ->
        str_in "?" u = false
        /\ exists (url html : string) (link : node),
            athletics_url = PStr url
            /\ get_page net (add_scheme url) 1 tr = (Ok (Some html), tr ++ ev)
            /\ In link (all_links (BeautifulSoup html))
            /\ href_of link <> ""
            /\ names_keyword FootballTeamPage.keywords link
            /\ ~ names_keyword FootballTeamPage.negative_keywords link
            /\ u = split_head "?" (urljoin (add_scheme url) (href_of link)).
Proof.
  unfold find_football_team_page, try_except.
  destruct athletics_url as [|url|z].
  - cbn. exists None, []. rewrite app_nil_r.
    split; [reflexivity|]. split; [unfold count_gets; simpl; lia|]. intros u [=].
  - destruct (negb (truthy (netloc (add_scheme url)))).
    + cbn. exists None, []. rewrite app_nil_r.
      split; [reflexivity|]. split; [unfold count_gets; simpl; lia|]. intros u [=].
    + unfold bind.
      destruct (get_page_requests net (add_scheme url) 1 tr) as (o & ev & Hget & Hc).
      rewrite Hget. change (Z.to_nat 1) with 1%nat in Hc.
      destruct o as [[|a h]|];
        try (cbn; exists None, ev; split; [reflexivity|]; split; [exact Hc|]; intros u [=]).
      set (soup := BeautifulSoup (String a h)).
      set (in_nav := omap (football_link urljoin (add_scheme url))
                          (nav_links FootballTeamPage.nav_words soup)).
      assert (forall v, In v match in_nav with
                             | [] => omap (football_link urljoin (add_scheme url))
                                          (all_links soup)
                             | _ :: _ => in_nav
                             end ->
                        exists link, In link (all_links soup)
                                     /\ football_link urljoin (add_scheme url) link = Some v)
        as Horigin.
      { intros v Hv. destruct in_nav as [|x l] eqn:E.
        - apply omap_In in Hv. exact Hv.
        - rewrite <- E in Hv. apply omap_In in Hv as (link & Hl & Hf).
          exists link. split; [|exact Hf]. eapply nav_links_all_links. exact Hl. }
      destruct (match in_nav with
                | [] => omap (football_link urljoin (add_scheme url)) (all_links soup)
                | _ :: _ => in_nav
                end) as [|first rest].
      * cbn. exists None, ev. split; [reflexivity|]. split; [exact Hc|]. intros u [=].
      * cbn. exists (Some (split_head "?" first)), ev.
        split; [reflexivity|]. split; [exact Hc|]. intros u [= <-].
        split; [apply split_head_no_sep|].
        destruct (Horigin first (or_introl eq_refl)) as (link & Hl & Hf).
        apply football_link_origin in Hf as (Hne & Hk & Hn & ->).
        exists url, (String a h), link. auto 10.
  - cbn. exists None, []. rewrite app_nil_r.
    split; [reflexivity|]. split; [unfold count_gets; simpl; lia|]. intros u [=].
Qed.

(** X4.  [find_football_team_page] never raises and makes at most one
    request.  A URL it returns holds no question mark, and is the URL,
    cut at its first question mark, of an anchor of the fetched page
    that names a football keyword and no negative keyword. *)
Theorem find_football_team_page_origin (athletics_url : pyval) (tr : trace) :
  exists (o : option string) (ev : trace),
    find_football_team_page urljoin BeautifulSoup netloc net athletics_url tr
    = (Ok o, tr ++ ev)
    /\ (count_gets ev <= 1)%nat
    /\ forall u : string,
        o = Some u ->
        str_in "?" u = false
        /\ exists (url html : string) (link : node),
            athletics_url = PStr url
            /\ get_page net (add_scheme url) 1 tr = (Ok (Some html), tr ++ ev)
            /\ In link (all_links (BeautifulSoup html))
            /\ href_of link <> ""
            /\ names_keyword FootballTeamPage.keywords link
            /\ ~ names_keyword FootballTeamPage.negative_keywords link
            /\ u = split_head "?" (urljoin (add_scheme url) (href_of link)).
Proof. exact (find_football_team_page_run athletics_url tr). Qed.

Lemma coaches_page_link_origin (url : string) (link : node) (c : category) (v : string) :
  coaches_page_link urljoin url link = Some (c, v) ->
  href_of link <> ""
  /\ ~ names_keyword CoachesPage.negative_keywords link
  /\ names_keyword match c with
                   | Coaches => CoachesPage.coaches_keywords
                   | Roster => CoachesPage.roster_keywords
                   end link
  /\ v = urljoin url (href_of link).
Proof.
  unfold coaches_page_link.
  destruct (get "href" link) as [[|a s]|] eqn:Eh; try discriminate.
  assert (href_of link = String a s) as Hh by (unfold href_of; rewrite Eh; reflexivity).
  destruct (mentions CoachesPage.negative_keywords _ _) eqn:En; [discriminate|].
  pose proof (mentions_not_names _ _ _ Hh En) as Hneg.
  destruct (mentions CoachesPage.coaches_keywords _ _) eqn:Ec.
  - intros [= <- <-]. rewrite Hh. split; [discriminate|]. split; [exact Hneg|].
    split; [apply (mentions_names _ _ _ Hh); exact Ec | reflexivity].
  - destruct (mentions CoachesPage.roster_keywords _ _) eqn:Er; [|discriminate].
    intros [= <- <-]. rewrite Hh. split; [discriminate|]. split; [exact Hneg|].
    split; [apply (mentions_names _ _ _ Hh); exact Er | reflexivity].
Qed.

Lemma coaches_page_links_origin (url : string) (soup : node) (c : category) (v : string) :
  In (c, v) (coaches_page_links urljoin url soup) ->
  exists link : node,
    In link (all_links soup) /\ coaches_page_link urljoin url link = Some (c, v).
Proof.
  unfold coaches_page_links. intros Hin.
  destruct (omap (coaches_page_link urljoin url) (nav_links CoachesPage.nav_words soup))
    as [|x l] eqn:E.
  - apply omap_In in Hin. exact Hin.
  - rewrite <- E in Hin. apply omap_In in Hin as (link & Hl & Hf).
    exists link. split; [|exact Hf]. eapply nav_links_all_links. exact Hl.
Qed.

Lemma find_coaches_page_run (athletics_url : string) (tr : trace) :
  exists (o : option string) (ev : trace),
    find_coaches_page urljoin BeautifulSoup net athletics_url tr = (Ok o, tr ++ ev)
    /\ (count_gets ev <= 1)%nat
    /\ forall u : string,
        o = Some u ->
        exists (html : string) (link : node) (c : category) (v : string),
          get_page net (add_scheme athletics_url) 1 tr = (Ok (Some html), tr ++ ev)
          /\ In link (all_links (BeautifulSoup html))
          /\ href_of link <> ""
          /\ ~ names_keyword CoachesPage.negative_keywords link
          /\ names_keyword match c with
                           | Coaches => CoachesPage.coaches_keywords
                           | Roster => CoachesPage.roster_keywords
                           end link
          /\ v = urljoin (add_scheme athletics_url) (href_of link)
          /\ match c with
             | Coaches => u = v
             | Roster => u = split_head "?" v
             end.
Proof.
  destruct (get_page_requests net (add_scheme athletics_url) 1 tr) as (o & ev & Hget & Hc).
  change (Z.to_nat 1) with 1%nat in Hc.
  destruct o as [[|a h]|].
  - exists None, ev. split; [|split; [exact Hc | intros u [=]]].
    unfold find_coaches_page, try_except, bind. rewrite Hget. reflexivity.
  - pose proof (find_coaches_page_selects urljoin BeautifulSoup net athletics_url tr
                  (tr ++ ev) (String a h) Hget) as Hsel.
    cbn zeta in Hsel. rewrite Hsel by discriminate.
    set (found := coaches_page_links urljoin (add_scheme athletics_url)
                                     (BeautifulSoup (String a h))).
    eexists _, ev. split; [reflexivity|]. split; [exact Hc|].
    assert (forall c v u,
               In v (links_of c found) ->
               match c with Coaches => u = v | Roster => u = split_head "?" v end ->
               exists (html : string) (link : node) (c : category) (v : string),
                 get_page net (add_scheme athletics_url) 1 tr = (Ok (Some html), tr ++ ev)
                 /\ In link (all_links (BeautifulSoup html))
                 /\ href_of link <> ""
                 /\ ~ names_keyword CoachesPage.negative_keywords link
                 /\ names_keyword match c with
                                  | Coaches => CoachesPage.coaches_keywords
                                  | Roster => CoachesPage.roster_keywords
                                  end link
                 /\ v = urljoin (add_scheme athletics_url) (href_of link)
                 /\ match c with
                    | Coaches => u = v
                    | Roster => u = split_head "?" v
                    end) as Horigin.
    { intros c v u Hin Hu. apply links_of_In in Hin.
      apply coaches_page_links_origin in Hin as (link & Hl & Hf).
      apply coaches_page_link_origin in Hf as (Hne & Hneg & Hk & Hv).
      exists (String a h), link, c, v. auto 10. }
    intros u Hu.
    destruct (filter_football (links_of Coaches found)) as [|chosen rest] eqn:Ef.
    + destruct (links_of Roster found) as [|first rest] eqn:Er.
      * destruct (links_of Coaches found) as [|first rest] eqn:Ec; [discriminate Hu|].
        injection Hu as <-. apply (Horigin Coaches first); [|reflexivity].
        rewrite Ec. left; reflexivity.
      * injection Hu as <-. apply (Horigin Roster first); [|reflexivity].
        rewrite Er. left; reflexivity.
    + injection Hu as <-. apply (Horigin Coaches chosen); [|reflexivity].
      apply filter_football_In. rewrite Ef. left; reflexivity.
  - exists None, ev. split; [|split; [exact Hc | intros u [=]]].
    unfold find_coaches_page, try_except, bind. rewrite Hget. reflexivity.
Qed.

(** X5.  [find_coaches_page] never raises and makes at most one
    request.  A URL it returns comes from an anchor of the fetched page
    that names no negative keyword: it is the URL of an anchor that
    names a coaches keyword, as it stands, or the URL of an anchor that
    names a roster keyword, cut at its first question mark. *)
Theorem find_coaches_page_origin (athletics_url : string) (tr : trace) :
  exists (o : option string) (ev : trace),
    find_coaches_page urljoin BeautifulSoup net athletics_url tr = (Ok o, tr ++ ev)
    /\ (count_gets ev <= 1)%nat
    /\ forall u : string,
        o = Some u ->
        exists (html : string) (link : node) (c : category) (v : string),
          get_page net (add_scheme athletics_url) 1 tr = (Ok (Some html), tr ++ ev)
          /\ In link (all_links (BeautifulSoup html))
          /\ href_of link <> ""
          /\ ~ names_keyword CoachesPage.negative_keywords link
          /\ names_keyword match c with
                           | Coaches => CoachesPage.coaches_keywords
                           | Roster => CoachesPage.roster_keywords
                           end link
          /\ v = urljoin (add_scheme athletics_url) (href_of link)
          /\ match c with
             | Coaches => u = v
             | Roster => u = split_head "?" v
             end.
Proof. exact (find_coaches_page_run athletics_url tr). Qed.

End FinderFacts.


(** ** The pipeline, whatever the network does *)

Section PipelineRuns.

Variable urljoin : string -> string -> string.
Variable BeautifulSoup : string -> node.
Variable netloc : string -> string.
Variable AIParser : string -> string -> result unit.
Variable net : network.









End PipelineRuns.

(** ** One attempt *)


(** ** [find_coaches_or_roster_link], whatever the network does *)

Section LinkFinderRuns.

Variable urljoin : string -> string -> string.
Variable BeautifulSoup : string -> node.
Variable net : network.

Lemma find_coaches_or_roster_link_run (url : string) (tr : trace) :
  exists (answer : string) (k j : nat),
    find_coaches_or_roster_link urljoin BeautifulSoup net url tr
    = (Ok answer,
       tr ++ [RequestsGet (add_scheme url) 60]
          ++ probes urljoin (add_scheme url) (take k coaches_patterns)
          ++ probes urljoin (add_scheme url) (take j roster_patterns))
    /\ (k <= length coaches_patterns)%nat
    /\ (j <= length roster_patterns)%nat.
Proof.
  rewrite find_coaches_or_roster_link_unfold. cbn zeta.
  assert (forall answer : string,
            exists (answer0 : string) (k j : nat),
              (Ok answer, tr ++ [RequestsGet (add_scheme url) 60])
              = (Ok answer0,
                 tr ++ [RequestsGet (add_scheme url) 60]
                    ++ probes urljoin (add_scheme url) (take k coaches_patterns)
                    ++ probes urljoin (add_scheme url) (take j roster_patterns))
              /\ (k <= length coaches_patterns)%nat
              /\ (j <= length roster_patterns)%nat) as Hpage.
  { intros answer. exists answer, 0%nat, 0%nat. cbn [take probes map app].
    split; [reflexivity|]. split; lia. }
  destruct (net tr (add_scheme url)) as [r|]; [|apply Hpage].
  destruct (attempt_fails (Some r)); [apply Hpage|].
  destruct (filter_football _) as [|chosen_link others]; [|apply Hpage].
  change (get_simulate_coaches_link urljoin net (add_scheme url))
    with (simulate CoachesProbe urljoin net (add_scheme url)).
  rewrite simulate_is_probe_loop.
  destruct (probe_loop_in_order urljoin net (add_scheme url)
              (simulate_keywords CoachesProbe) (simulate_patterns CoachesProbe)
              (tr ++ [RequestsGet (add_scheme url) 60])) as (o & k & -> & Hk & _).
  change (simulate_patterns CoachesProbe) with coaches_patterns in *.
  assert (forall answer : string,
            exists (answer0 : string) (k0 j : nat),
              (Ok answer,
               (tr ++ [RequestsGet (add_scheme url) 60])
                 ++ probes urljoin (add_scheme url) (take k coaches_patterns))
              = (Ok answer0,
                 tr ++ [RequestsGet (add_scheme url) 60]
                    ++ probes urljoin (add_scheme url) (take k0 coaches_patterns)
                    ++ probes urljoin (add_scheme url) (take j roster_patterns))
              /\ (k0 <= length coaches_patterns)%nat
              /\ (j <= length roster_patterns)%nat) as Hcoaches.
  { intros answer. exists answer, k, 0%nat. cbn [take probes map].
    rewrite app_nil_r, <- app_assoc. split; [reflexivity|]. split; lia. }
  assert (exists (answer0 : string) (k0 j : nat),
            match links_of Roster
                    (classified_links urljoin (add_scheme url) (BeautifulSoup (text r))) with
            | [] =>
                match get_simulate_roster_link urljoin net (add_scheme url)
                        ((tr ++ [RequestsGet (add_scheme url) 60])
                           ++ probes urljoin (add_scheme url) (take k coaches_patterns)) with
                | (Ok (Some (String a s)), tr3) => (Ok (String a s), tr3)
                | (_, tr3) => (Ok "Not found", tr3)
                end
            | first :: _ =>
                (Ok (split_head "?" first),
                 (tr ++ [RequestsGet (add_scheme url) 60])
                   ++ probes urljoin (add_scheme url) (take k coaches_patterns))
            end
            = (Ok answer0,
               tr ++ [RequestsGet (add_scheme url) 60]
                  ++ probes urljoin (add_scheme url) (take k0 coaches_patterns)
                  ++ probes urljoin (add_scheme url) (take j roster_patterns))
            /\ (k0 <= length coaches_patterns)%nat
            /\ (j <= length roster_patterns)%nat) as Hroster.
  { destruct (links_of Roster _) as [|first others]; [|apply Hcoaches].
    change (get_simulate_roster_link urljoin net (add_scheme url))
      with (simulate RosterProbe urljoin net (add_scheme url)).
    rewrite simulate_is_probe_loop.
    destruct (probe_loop_in_order urljoin net (add_scheme url)
                (simulate_keywords RosterProbe) (simulate_patterns RosterProbe)
                ((tr ++ [RequestsGet (add_scheme url) 60])
                   ++ probes urljoin (add_scheme url) (take k coaches_patterns)))
      as (o' & j & -> & Hj & _).
    change (simulate_patterns RosterProbe) with roster_patterns in *.
    rewrite <- !app_assoc.
    destruct o' as [[|a s]|]; eexists _, k, j; (split; [reflexivity|]); split; lia. }
  destruct o as [[|a s]|]; [exact Hroster | apply Hcoaches | exact Hroster].
Qed.

(** X9.  [find_coaches_or_roster_link] never raises.  Its first
    request is for the page, with the scheme added and a timeout of 60
    seconds; all it requests after that are suffixes of the coaches
    list, in order, and then suffixes of the roster list, in order. *)
Theorem find_coaches_or_roster_link_requests (url : string) (tr : trace) :
  exists (answer : string) (k j : nat),
    find_coaches_or_roster_link urljoin BeautifulSoup net url tr
    = (Ok answer,
       tr ++ [RequestsGet (add_scheme url) 60]
          ++ probes urljoin (add_scheme url) (take k coaches_patterns)
          ++ probes urljoin (add_scheme url) (take j roster_patterns))
    /\ (k <= length coaches_patterns)%nat
    /\ (j <= length roster_patterns)%nat.
Proof. exact (find_coaches_or_roster_link_run url tr). Qed.

End LinkFinderRuns.

(** ** The rows of a sidearm table *)

Section RowFacts.

Variable urljoin : string -> string -> string.

Lemma sidearm_rows_app (base_url : string) (rows1 rows2 : list node) :
  sidearm_rows urljoin base_url (rows1 ++ rows2)
  = (fst (sidearm_rows urljoin base_url rows1) ++ fst (sidearm_rows urljoin base_url rows2),
     snd (sidearm_rows urljoin base_url rows1) ++ snd (sidearm_rows urljoin base_url rows2)).
Proof.
  induction rows1 as [|row rest IH].
  - cbn [app sidearm_rows fst snd]. destruct (sidearm_rows urljoin base_url rows2).
    reflexivity.
  - cbn [app sidearm_rows]. rewrite IH.
    destruct (sidearm_rows urljoin base_url rest) as [coaches logs].
    cbn [fst snd].
    destruct (sidearm_row urljoin base_url row) as [[coach|]|e]; reflexivity.
Qed.

(** X10.  A row whose name cell has an anchor without [href] adds no
    record, only the warning for its [KeyError]; the rows before and
    after it give what they give without it. *)
Theorem sidearm_row_error_isolated (base_url : string) (before after : list node)
        (row name_cell name_link : node) :
  find_all (is_tag ["td"; "th"]) row !! 1%nat = Some name_cell ->
  find (is_tag ["a"]) name_cell = Some name_link ->
  get "href" name_link = None ->
  sidearm_rows urljoin base_url (before ++ row :: after)
  = (fst (sidearm_rows urljoin base_url before) ++ fst (sidearm_rows urljoin base_url after),
     snd (sidearm_rows urljoin base_url before)
       ++ WarnSidearmRow KeyError :: snd (sidearm_rows urljoin base_url after)).
Proof.
  intros Hcell Hlink Hhref. rewrite sidearm_rows_app. cbn [sidearm_rows].
  destruct (sidearm_rows urljoin base_url after) as [coaches logs].
  unfold sidearm_row. cbn zeta. rewrite Hcell, Hlink, Hhref. reflexivity.
Qed.

End RowFacts.

(** ** [scrape_coaches_from_roster_url] *)

Section RosterUrlRuns.

Variable urljoin : string -> string -> string.
Variable BeautifulSoup : string -> node.
Variable AIParser : string -> string -> result unit.
Variable net : network.



End RosterUrlRuns.

(** ** [find_athletics_url] *)




Section AthleticsUrl.

Variable urljoin : string -> string -> string.
Variable BeautifulSoup : string -> node.
Variable net : network.


End AthleticsUrl.

(** ** [find_football_link] *)

Section FootballLinkFacts.

Variable urljoin : string -> string -> string.
Variable BeautifulSoup : string -> node.
Variable net : network.
Variable final_url : trace -> string -> string.
Variable self_call : string -> M string.

(** [find_football_link], its control flow laid out. *)
Lemma find_football_link_body_unfold (url : string) (tr : trace) :
  find_football_link_body urljoin BeautifulSoup net final_url self_call url tr =
  let url' := normalize_url url in
  let tr1 := tr ++ [RequestsGet url' 60] in
  match net tr url' with
  | None => (Ok "Not found", tr1)
  | Some r =>
      if attempt_fails (Some r) then (Ok "Not found", tr1)
      else
        let final := final_url tr url' in
        match find skip_anchor (BeautifulSoup (text r)) with
        | Some skip_link =>
            match get "href" skip_link with
            | Some href =>
                match self_call (urljoin final href) tr1 with
                | (Ok answer, tr2) => (Ok answer, tr2)
                | (Raise _, tr2) => (Ok "Not found", tr2)
                end
            | None => (Ok "Not found", tr1)
            end
        | None =>
            match football_program_links urljoin BeautifulSoup final r with
            | first :: _ => (Ok (split_head "?" first), tr1)
            | [] =>
                match get_simulate_football_link urljoin net final tr1 with
                | (Ok (Some (String a s)), tr2) => (Ok (String a s), tr2)
                | (_, tr2) => (Ok "Not found", tr2)
                end
            end
        end
  end.
Proof.
  unfold find_football_link_body, try_except at 1. cbn zeta.
  unfold bind at 1, requests_get_url.
  destruct (net tr (normalize_url url)) as [r|]; [|reflexivity].
  cbn [fst snd]. unfold bind at 1, raise_for_status, attempt_fails.
  destruct ((400 <=? status_code r)%Z && (status_code r <? 600)%Z); [reflexivity|].
  unfold ret at 1.
  destruct (find skip_anchor (BeautifulSoup (text r))) as [skip_link|].
  - destruct (get "href" skip_link) as [href|]; [|reflexivity].
    destruct (self_call _ _) as [[answer|e] tr2]; reflexivity.
  - destruct (football_program_links _ _ _ _) as [|first others]; [|reflexivity].
    unfold bind at 1.
    destruct (get_simulate_football_link urljoin net _ _) as [[[[|a s]|]|e] tr2];
      reflexivity.
Qed.

Lemma football_program_link_origin (url : string) (link : node) (v : string) :
  football_program_link urljoin url link = Some v ->
  href_of link <> ""
  /\ names_keyword FootballLink.keywords link
  /\ ~ names_keyword FootballLink.negative_keywords link
  /\ v = urljoin url (href_of link).
Proof.
  unfold football_program_link.
  destruct (get "href" link) as [[|a s]|] eqn:Eh; try discriminate.
  assert (href_of link = String a s) as Hh by (unfold href_of; rewrite Eh; reflexivity).
  destruct (mentions FootballLink.negative_keywords _ _) eqn:En; [discriminate|].
  destruct (mentions FootballLink.keywords _ _) eqn:Ek; [|discriminate].
  intros [= <-]. rewrite Hh. split; [discriminate|].
  split; [exact (proj1 (mentions_names _ link _ Hh) Ek)|].
  split; [exact (mentions_not_names _ link _ Hh En) | reflexivity].
Qed.

Lemma football_program_links_origin (url : string) (page : response) (v : string) :
  In v (football_program_links urljoin BeautifulSoup url page) ->
  exists link : node,
    In link (all_links (BeautifulSoup (text page)))
    /\ football_program_link urljoin url link = Some v.
Proof.
  unfold football_program_links. cbn zeta. intros Hin.
  destruct (omap (football_program_link urljoin url)
              (nav_links FootballLink.nav_words (BeautifulSoup (text page))))
    as [|x l] eqn:E.
  - destruct (football_pattern_search (text page)); [|destruct Hin].
    apply omap_In in Hin. exact Hin.
  - rewrite <- E in Hin. apply omap_In in Hin as (link & Hl & Hf).
    exists link. split; [|exact Hf]. eapply nav_links_all_links. exact Hl.
Qed.

Lemma find_football_link_body_run (url : string) (tr : trace) :
  exists (answer : string) (tr' : trace),
    find_football_link_body urljoin BeautifulSoup net final_url self_call url tr
    = (Ok answer, tr')
    /\ (attempt_fails (net tr (normalize_url url)) = true ->
        answer = "Not found" /\ tr' = tr ++ [RequestsGet (normalize_url url) 60])
    /\ forall (e : exn) (r : response) (skip_link : node) (href : string) (tr2 : trace),
        net tr (normalize_url url) = Some r ->
        attempt_fails (Some r) = false ->
        find skip_anchor (BeautifulSoup (text r)) = Some skip_link ->
        get "href" skip_link = Some href ->
        self_call (urljoin (final_url tr (normalize_url url)) href)
                  (tr ++ [RequestsGet (normalize_url url) 60]) = (Raise e, tr2) ->
        answer = "Not found" /\ tr' = tr2.
Proof.
  rewrite find_football_link_body_unfold. cbn zeta.
  destruct (net tr (normalize_url url)) as [r|] eqn:En.
  - destruct (attempt_fails (Some r)) eqn:Ef.
    + eexists _, _. split; [reflexivity|]. split; [auto|].
      intros e r0 skip_link href tr2 [= <-] Hf. rewrite Hf in Ef. discriminate Ef.
    + destruct (find skip_anchor (BeautifulSoup (text r))) as [skip_link|] eqn:Es.
      * destruct (get "href" skip_link) as [href|] eqn:Eh.
        -- destruct (self_call _ _) as [[answer|e] tr2] eqn:Ec;
             (eexists _, _; split; [reflexivity|]; split; [intros H; discriminate H|]);
             intros e0 r0 skip0 href0 tr0 [= <-] _ Hs0 Hh0 Hc0;
             rewrite Es in Hs0; injection Hs0 as <-;
             rewrite Eh in Hh0; injection Hh0 as <-; rewrite Ec in Hc0.
           ++ discriminate Hc0.
           ++ injection Hc0 as _ <-. auto.
        -- eexists _, _. split; [reflexivity|]. split; [intros H; discriminate H|].
           intros e r0 skip0 href tr2 [= <-] _ Hs0 Hh0. rewrite Es in Hs0.
           injection Hs0 as <-. rewrite Eh in Hh0. discriminate Hh0.
      * assert (forall (answer : string) (tr' : trace),
                  forall (e : exn) (r0 : response) (skip_link : node) (href : string)
                         (tr2 : trace),
                    Some r = Some r0 ->
                    attempt_fails (Some r0) = false ->
                    find skip_anchor (BeautifulSoup (text r0)) = Some skip_link ->
                    get "href" skip_link = Some href ->
                    self_call (urljoin (final_url tr (normalize_url url)) href)
                              (tr ++ [RequestsGet (normalize_url url) 60]) = (Raise e, tr2) ->
                    answer = "Not found" /\ tr' = tr2) as Hskip.
        { intros answer tr' e r0 skip_link href tr2 [= <-] _ Hs. rewrite Es in Hs.
          discriminate Hs. }
        destruct (football_program_links _ _ _ _) as [|first others].
        -- destruct (get_simulate_football_link urljoin net _ _) as [[[[|a s]|]|e] tr2];
             (eexists _, _; split; [reflexivity|]; split; [intros H; discriminate H|]);
             apply Hskip.
        -- eexists _, _. split; [reflexivity|]. split; [intros H; discriminate H|].
           apply Hskip.
  - eexists _, _. split; [reflexivity|]. split; [auto|].
    intros e r skip_link href tr2 H. discriminate H.
Qed.

(** X13.  [find_football_link] never raises, whatever its call of
    itself on a splash page does: a page that cannot be fetched, or has
    an error status, gives "Not found" after the one request, and an
    exception out of the call on the skip link gives "Not found" too. *)
Theorem find_football_link_never_raises (url : string) (tr : trace) :
  exists (answer : string) (tr' : trace),
    find_football_link_body urljoin BeautifulSoup net final_url self_call url tr
    = (Ok answer, tr')
    /\ (attempt_fails (net tr (normalize_url url)) = true ->
        answer = "Not found" /\ tr' = tr ++ [RequestsGet (normalize_url url) 60])
    /\ forall (e : exn) (r : response) (skip_link : node) (href : string) (tr2 : trace),
        net tr (normalize_url url) = Some r ->
        attempt_fails (Some r) = false ->
        find skip_anchor (BeautifulSoup (text r)) = Some skip_link ->
        get "href" skip_link = Some href ->
        self_call (urljoin (final_url tr (normalize_url url)) href)
                  (tr ++ [RequestsGet (normalize_url url) 60]) = (Raise e, tr2) ->
        answer = "Not found" /\ tr' = tr2.
Proof. exact (find_football_link_body_run url tr). Qed.

(** X14.  On a page without a skip link, an answer of
    [find_football_link] other than "Not found" is one of two things.
    It is the URL of an anchor of the page, joined to the URL the
    request ended at and cut at the first "?": the anchor has an
    [href], its text or [href] holds a football keyword and none of
    the negative keywords.  Or it is a suffix of the football list
    joined to the URL the request ended at, whose probe was a hit. *)
Theorem find_football_link_answer (url : string) (tr tr' : trace) (answer : string)
        (r : response) :
  find_football_link_body urljoin BeautifulSoup net final_url self_call url tr
  = (Ok answer, tr') ->
  answer <> "Not found" ->
  net tr (normalize_url url) = Some r ->
  find skip_anchor (BeautifulSoup (text r)) = None ->
  let final := final_url tr (normalize_url url) in
  (str_in "?" answer = false
   /\ tr' = tr ++ [RequestsGet (normalize_url url) 60]
   /\ exists link : node,
       In link (all_links (BeautifulSoup (text r)))
       /\ href_of link <> ""
       /\ names_keyword FootballLink.keywords link
       /\ ~ names_keyword FootballLink.negative_keywords link
       /\ answer = split_head "?" (urljoin final (href_of link)))
  \/ exists (pattern : string) (k : nat),
      football_patterns !! k = Some pattern
      /\ answer = urljoin final pattern
      /\ tr' = (tr ++ [RequestsGet (normalize_url url) 60])
                 ++ probes urljoin final (take (S k) football_patterns)
      /\ probe_hit football_probe_keywords
           (net ((tr ++ [RequestsGet (normalize_url url) 60])
                   ++ probes urljoin final (take k football_patterns)) answer) = true.
Proof.
  intros Hrun Hfound Hnet Hskip. cbn zeta.
  rewrite find_football_link_body_unfold in Hrun. cbn zeta in Hrun.
  rewrite Hnet in Hrun.
  destruct (attempt_fails (Some r)).
  { injection Hrun as <- _. destruct (Hfound eq_refl). }
  rewrite Hskip in Hrun.
  destruct (football_program_links urljoin BeautifulSoup
              (final_url tr (normalize_url url)) r) as [|first others] eqn:El.
  - right.
    change (get_simulate_football_link urljoin net (final_url tr (normalize_url url)))
      with (simulate FootballProbe urljoin net (final_url tr (normalize_url url))) in Hrun.
    rewrite simulate_is_probe_loop in Hrun.
    destruct (probe_loop_in_order urljoin net (final_url tr (normalize_url url))
                (simulate_keywords FootballProbe) (simulate_patterns FootballProbe)
                (tr ++ [RequestsGet (normalize_url url) 60])) as (o & k & Hp & Hk & Ho).
    rewrite Hp in Hrun.
    change (simulate_patterns FootballProbe) with football_patterns in *.
    change (simulate_keywords FootballProbe) with football_probe_keywords in *.
    destruct o as [[|a s]|].
    + injection Hrun as <- _. destruct (Hfound eq_refl).
    + injection Hrun as <- <-.
      destruct Ho as (pattern & Hpos & Hat & Hu & Hhit).
      destruct k as [|k']; [lia|].
      cbn [Nat.sub] in Hat, Hhit. rewrite Nat.sub_0_r in Hat, Hhit.
      exists pattern, k'. rewrite <- Hu. auto.
    + injection Hrun as <- _. destruct (Hfound eq_refl).
  - left. injection Hrun as <- <-.
    split; [apply split_head_no_sep|]. split; [reflexivity|].
    assert (In first (football_program_links urljoin BeautifulSoup
                        (final_url tr (normalize_url url)) r)) as Hin
        by (rewrite El; left; reflexivity).
    apply football_program_links_origin in Hin as (link & Hl & Hf).
    apply football_program_link_origin in Hf as (Hh & Hk & Hn & ->).
    exists link. auto.
Qed.

End FootballLinkFacts.

(** ** The scheme of a URL *)

Lemma add_scheme_scheme (url : string) :
  startswith "http://" (add_scheme url) || startswith "https://" (add_scheme url) = true.
Proof.
  unfold add_scheme.
  destruct (startswith "http://" url || startswith "https://" url) eqn:E; [exact E|].
  reflexivity.
Qed.

Lemma scheme_no_slashes (url : string) :
  startswith "http://" url || startswith "https://" url = true ->
  startswith "//" url = false.
Proof.
  destruct url as [|c url']; [discriminate|]. cbn [startswith].
  destruct (Ascii.eqb "h" c) eqn:E; [|discriminate].
  apply Ascii.eqb_eq in E. subst c. reflexivity.
Qed.

Lemma add_scheme_fixed (url : string) :
  startswith "http://" url || startswith "https://" url = true -> add_scheme url = url.
Proof. intros H. unfold add_scheme. rewrite H. reflexivity. Qed.

Lemma normalize_url_scheme (url : string) :
  startswith "http://" (normalize_url url) || startswith "https://" (normalize_url url)
  = true.
Proof. apply add_scheme_scheme. Qed.

(** X15.  The URL that [process_school] and [find_football_link] make
    of the one they are given begins with "http://" or "https://", and
    making it again changes nothing: [find_football_link] requests the
    URL that [process_school] hands it as it stands. *)
Theorem normalize_url_idempotent (url : string) :
  startswith "http://" (normalize_url url) || startswith "https://" (normalize_url url)
  = true
  /\ normalize_url (normalize_url url) = normalize_url url.
Proof.
  split; [apply normalize_url_scheme|].
  unfold normalize_url at 1.
  rewrite (scheme_no_slashes _ (normalize_url_scheme url)).
  apply add_scheme_fixed, normalize_url_scheme.
Qed.

(** ** [process_school] *)

Lemma missing_fields_In (school : dict) (field : string) :
  In field (missing_fields school)
  <-> In field required_fields /\ pytruthy (dict_get school field) = false.
Proof.
  unfold missing_fields. rewrite filter_In, negb_true_iff. reflexivity.
Qed.

Section TaskFacts.

Variable urljoin : string -> string -> string.
Variable BeautifulSoup : string -> node.
Variable net : network.
Variable final_url : trace -> string -> string.
Variable depth : nat.
Variable append_csv : dict -> bool.
Variable now : string.

Lemma process_school_missing (school : dict) (tr : trace) :
  missing_fields school <> [] ->
  process_school urljoin BeautifulSoup net final_url depth append_csv now school tr
  = (Ok (inl (ValueError
                ("Missing required fields for "
                   +:+ pystr (dict_get_or school "school_name" (PStr "Unknown School"))
                   +:+ ": " +:+ join ", " (missing_fields school)))), tr).
Proof.
  intros Hne. unfold process_school. cbn zeta.
  destruct (missing_fields school) as [|field rest]; [destruct (Hne eq_refl)|].
  reflexivity.
Qed.

(** X16.  A school without one of the three required fields, or with
    [None], the empty string or zero for it, gets a [ValueError] whose
    message lists the missing fields in the order "ncaa_institution_id",
    "school_name", "athletics_url"; no request is made. *)
Theorem process_school_missing_field (school : dict) (field : string) (tr : trace) :
  In field required_fields ->
  pytruthy (dict_get school field) = false ->
  In field (missing_fields school)
  /\ process_school urljoin BeautifulSoup net final_url depth append_csv now school tr
     = (Ok (inl (ValueError
                   ("Missing required fields for "
                      +:+ pystr (dict_get_or school "school_name" (PStr "Unknown School"))
                      +:+ ": " +:+ join ", " (missing_fields school)))), tr).
Proof.
  intros Hin Hfalsy.
  assert (In field (missing_fields school)) as Hm by (apply missing_fields_In; auto).
  split; [exact Hm|]. apply process_school_missing.
  intros E. rewrite E in Hm. destruct Hm.
Qed.

(** X17.  When [process_school] returns, all three required fields were
    there, [athletics_url] was a string, and both finders found a URL:
    [find_football_link] on the URL with its scheme, then
    [find_coaches_or_roster_link] on what that found.  The result holds
    the two URLs, neither of them "Not found", and [school_data] holds
    the URL with its scheme; whether the CSV row could be written
    changes none of it. *)
Theorem process_school_returns (school : dict) (tr tr' : trace) (p : processed) :
  process_school urljoin BeautifulSoup net final_url depth append_csv now school tr
  = (Ok (inr p), tr') ->
  exists (athletics_url football_url roster_url : string) (tr1 : trace),
    missing_fields school = []
    /\ dict_get school "athletics_url" = PStr athletics_url
    /\ find_football_link urljoin BeautifulSoup net final_url depth
                          (normalize_url athletics_url) tr = (Ok football_url, tr1)
    /\ find_coaches_or_roster_link urljoin BeautifulSoup net football_url tr1
       = (Ok roster_url, tr')
    /\ football_url <> "Not found"
    /\ roster_url <> "Not found"
    /\ result_of p
       = {[ "school_name" := dict_get_or school "school_name" (PStr "Unknown School");
            "school_id" := dict_get_or school "ncaa_institution_id" (PStr "Unknown ID");
            "football_url" := PStr football_url;
            "roster_url" := PStr roster_url ]}
    /\ school_data_of p = <["athletics_url" := PStr (normalize_url athletics_url)]> school.
Proof.
  unfold process_school. cbn zeta.
  destruct (missing_fields school) as [|field rest]; [|discriminate].
  destruct (dict_get school "athletics_url") as [|athletics_url|z]; try discriminate.
  unfold bind at 1.
  destruct (find_football_link urljoin BeautifulSoup net final_url depth
                               (normalize_url athletics_url) tr)
    as [[football_url|e] tr1] eqn:Ef; [|discriminate].
  destruct (String.eqb football_url "Not found") eqn:Enf; [discriminate|].
  unfold bind at 1.
  destruct (find_coaches_or_roster_link urljoin BeautifulSoup net football_url tr1)
    as [[roster_url|e] tr2] eqn:Er; [|discriminate].
  destruct (String.eqb roster_url "Not found") eqn:Enr; [discriminate|].
  intros [= <- <-].
  exists athletics_url, football_url, roster_url, tr1.
  apply String.eqb_neq in Enf, Enr. cbn [result_of school_data_of].
  split; [reflexivity|]. split; [reflexivity|]. split; [exact Ef|].
  split; [exact Er|]. split; [exact Enf|]. split; [exact Enr|].
  split; reflexivity.
Qed.

(** ** The rows of the CSV file *)

Lemma school_data_of_row_fields (row data : dict) :
  school_data_of_row row = Some data ->
  pytruthy (dict_get data "ncaa_institution_id") = true
  /\ pytruthy (dict_get data "school_name") = true
  /\ dict_get data "school_name" = dict_get_or row "school_name" (PStr "")
  /\ dict_get data "athletics_url" = dict_get_or row "athletic_web_url" (PStr "").
Proof.
  unfold school_data_of_row. cbn zeta.
  destruct (truthy (pystr (dict_get_or row "orgId" (PStr "")))) eqn:Eid; [|discriminate].
  destruct (pytruthy (dict_get_or row "school_name" (PStr ""))) eqn:Ename; [|discriminate].
  cbn [negb orb]. intros [= <-]. unfold dict_get.
  split; [|split; [|split]].
  - rewrite !lookup_insert_ne by discriminate. rewrite lookup_insert_eq. exact Eid.
  - rewrite !lookup_insert_ne by discriminate. rewrite lookup_insert_eq. exact Ename.
  - rewrite !lookup_insert_ne by discriminate. rewrite lookup_insert_eq. reflexivity.
  - rewrite lookup_insert_eq. reflexivity.
Qed.

(** X18.  For a row of the CSV file that the loop does not skip, the
    only required field [process_school] can find missing is
    [athletics_url], and it does when the row's [athletic_web_url] is
    absent, [None] or empty: the task then ends in a [ValueError] that
    names the school and that field, before any request. *)
Theorem row_validation (row data : dict) (tr : trace) :
  school_data_of_row row = Some data ->
  missing_fields data
  = (if pytruthy (dict_get_or row "athletic_web_url" (PStr "")) then []
     else ["athletics_url"])
  /\ (pytruthy (dict_get_or row "athletic_web_url" (PStr "")) = false ->
      process_school urljoin BeautifulSoup net final_url depth append_csv now data tr
      = (Ok (inl (ValueError
                    ("Missing required fields for "
                       +:+ pystr (dict_get_or row "school_name" (PStr ""))
                       +:+ ": athletics_url"))), tr)).
Proof.
  intros Hrow.
  destruct (school_data_of_row_fields row data Hrow) as (Hid & Hname & Hn & Hurl).
  assert (missing_fields data
          = (if pytruthy (dict_get_or row "athletic_web_url" (PStr "")) then []
             else ["athletics_url"])) as Hm.
  { unfold missing_fields, required_fields. cbn [List.filter].
    rewrite Hid, Hname, Hurl. cbn [negb].
    destruct (pytruthy (dict_get_or row "athletic_web_url" (PStr ""))); reflexivity. }
  split; [exact Hm|]. intros Hfalsy. rewrite Hfalsy in Hm.
  rewrite process_school_missing by (rewrite Hm; discriminate).
  rewrite Hm. unfold dict_get_or at 1.
  assert (data !! "school_name" = Some (dict_get_or row "school_name" (PStr ""))) as ->.
  { revert Hrow. unfold school_data_of_row. cbn zeta.
    destruct (negb _ || negb _); [discriminate|]. intros [= <-].
    rewrite !lookup_insert_ne by discriminate. apply lookup_insert_eq. }
  reflexivity.
Qed.

End TaskFacts.

(** ** [extract_coach_bio_bs4] *)

(** The traversal that pairs every node with its next siblings visits
    the nodes [descendants] gives, in that order. *)
Lemma with_next_siblings_descendants (n : node) :
  map fst (with_next_siblings n) = descendants n.
Proof.
  induction n as [s|name classes attrs contents IH] using node_ind'; [reflexivity|].
  induction contents as [|k l IHl]; [reflexivity|].
  apply Forall_cons_1 in IH as [Hk Hl]. specialize (IHl Hl).
  cbn [with_next_siblings descendants flat_map] in *.
  cbn [map fst]. rewrite map_app, Hk, IHl. reflexivity.
Qed.

Lemma with_next_siblings_sound (soup n : node) (siblings : list node) :
  In (n, siblings) (with_next_siblings soup) ->
  forall sibling : node, In sibling siblings -> In sibling (descendants soup).
Proof.
  revert n siblings.
  induction soup as [s|name classes attrs contents IH] using node_ind';
    intros n siblings Hin sibling Hs; [destruct Hin|].
  induction contents as [|k l IHl]; [destruct Hin|].
  apply Forall_cons_1 in IH as [Hk Hl]. specialize (IHl Hl).
  cbn [with_next_siblings descendants flat_map] in *.
  destruct Hin as [Heq|Hin].
  - injection Heq as _ <-. apply filter_In in Hs as [Hs _].
    right. apply in_or_app. right.
    apply in_flat_map. exists sibling. split; [exact Hs | left; reflexivity].
  - apply in_app_or in Hin as [Hin|Hin].
    + right. apply in_or_app. left. exact (Hk n siblings Hin sibling Hs).
    + right. apply in_or_app. right. exact (IHl Hin).
Qed.

Lemma section_texts_origin (siblings : list node) (item : string) :
  In item (section_texts siblings) ->
  exists sibling : node,
    In sibling siblings /\ is_tag ["p"; "li"; "div"] sibling = true
    /\ item = strip (get_text sibling).
Proof.
  induction siblings as [|sibling rest IH]; intros Hin; [destruct Hin|].
  cbn [section_texts] in Hin.
  destruct (is_tag ["h2"; "h3"; "h4"] sibling); [destruct Hin|].
  destruct (is_tag ["p"; "li"; "div"] sibling) eqn:Et.
  - destruct Hin as [<-|Hin].
    + exists sibling. split; [left; reflexivity | auto].
    + destruct (IH Hin) as (s & Hs & H). exists s. split; [right; exact Hs | exact H].
  - destruct (IH Hin) as (s & Hs & H). exists s. split; [right; exact Hs | exact H].
Qed.

Lemma first_section_origin (keywords : list string) (headings : list (node * list node))
      (item : string) :
  In item (first_section keywords headings) ->
  exists (heading : node) (siblings : list node),
    In (heading, siblings) headings
    /\ any_in keywords (lower (get_text heading)) = true
    /\ In item (section_texts siblings).
Proof.
  induction headings as [|[heading siblings] rest IH]; intros Hin; [destruct Hin|].
  cbn [first_section] in Hin.
  assert (In item (first_section keywords rest) ->
          exists (heading0 : node) (siblings0 : list node),
            In (heading0, siblings0) ((heading, siblings) :: rest)
            /\ any_in keywords (lower (get_text heading0)) = true
            /\ In item (section_texts siblings0)) as Hrest.
  { intros H. destruct (IH H) as (h & s & Hh & Hr). exists h, s.
    split; [right; exact Hh | exact Hr]. }
  destruct (any_in keywords (lower (get_text heading))) eqn:Ek; [|exact (Hrest Hin)].
  destruct (section_texts siblings) as [|x l] eqn:Es; [exact (Hrest Hin)|].
  exists heading, siblings. split; [left; reflexivity|]. split; [exact Ek|].
  rewrite Es. exact Hin.
Qed.

Lemma section_item_origin (keywords : list string) (soup : node) (item : string) :
  In item (first_section keywords (headings_of soup)) ->
  exists n : node,
    In n (descendants soup) /\ is_tag ["p"; "li"; "div"] n = true
    /\ item = strip (get_text n).
Proof.
  intros Hin. apply first_section_origin in Hin as (heading & siblings & Hh & _ & Hi).
  unfold headings_of in Hh. apply filter_In in Hh as [Hh _].
  apply section_texts_origin in Hi as (sibling & Hs & Ht & ->).
  exists sibling. split; [|auto]. exact (with_next_siblings_sound soup heading siblings Hh _ Hs).
Qed.

Lemma lookup_set_if (k k' : string) (v : option bioval) (d : gmap string bioval)
      (x : bioval) :
  set_if k v d !! k' = Some x -> (k' = k /\ v = Some x) \/ d !! k' = Some x.
Proof.
  destruct v as [y|]; [|right; assumption]. cbn [set_if].
  destruct (decide (k = k')) as [<-|Hne].
  - rewrite lookup_insert_eq. intros [= <-]. left. auto.
  - rewrite lookup_insert_ne by exact Hne. right. assumption.
Qed.

Lemma items_if_any_items (l : list string) (v : bioval) :
  items_if_any l = Some v -> v = BItems l /\ l <> [].
Proof. destruct l; [discriminate|]. intros [= <-]. split; [reflexivity | discriminate]. Qed.

(** X19.  The dictionary [extract_coach_bio_bs4] returns has no keys
    but "bio", "education", "experience", "email" and "phone".  "bio",
    "email" and "phone" hold a text.  "education" and "experience",
    when they are there, hold a list that is not empty, each item the
    stripped text of a [p], [li] or [div] element of the page. *)
Theorem extract_coach_bio_bs4_shape (BeautifulSoup : string -> node)
        (html_content coach_name : string) (school_name : option string)
        (k : string) (v : bioval) :
  extract_coach_bio_bs4 BeautifulSoup html_content coach_name school_name !! k = Some v ->
  ((k = "bio" \/ k = "email" \/ k = "phone") /\ exists text : string, v = BText text)
  \/ ((k = "education" \/ k = "experience")
      /\ exists items : list string,
          v = BItems items /\ items <> []
          /\ forall item : string,
              In item items ->
              exists n : node,
                In n (descendants (BeautifulSoup html_content))
                /\ is_tag ["p"; "li"; "div"] n = true
                /\ item = strip (get_text n)).
Proof.
  unfold extract_coach_bio_bs4. cbn zeta. intros Hk.
  apply lookup_set_if in Hk as [[-> Hv]|Hk].
  { left. split; [auto|]. destruct (find tel_anchor _); [|discriminate Hv].
    destruct (get "href" n); [|discriminate Hv]. injection Hv as <-. eauto. }
  apply lookup_set_if in Hk as [[-> Hv]|Hk].
  { left. split; [auto|]. destruct (find mailto_anchor _); [|discriminate Hv].
    destruct (get "href" n); [|discriminate Hv]. injection Hv as <-. eauto. }
  apply lookup_set_if in Hk as [[-> Hv]|Hk].
  { right. split; [auto|]. apply items_if_any_items in Hv as [-> Hne].
    eexists. split; [reflexivity|]. split; [exact Hne|].
    intros item. apply section_item_origin. }
  apply lookup_set_if in Hk as [[-> Hv]|Hk].
  { right. split; [auto|]. apply items_if_any_items in Hv as [-> Hne].
    eexists. split; [reflexivity|]. split; [exact Hne|].
    intros item. apply section_item_origin. }
  apply lookup_set_if in Hk as [[-> Hv]|Hk].
  { left. split; [auto|]. destruct (first_bio_element _ _).
    - injection Hv as <-. eauto.
    - destruct (long_paragraphs _); [discriminate Hv|]. injection Hv as <-. eauto. }
  rewrite lookup_empty in Hk. discriminate Hk.
Qed.

(** ** [find_football_link], closed on itself *)

Section ClosedFootballLink.

Variable urljoin : string -> string -> string.
Variable BeautifulSoup : string -> node.
Variable net : network.
Variable final_url : trace -> string -> string.

Lemma find_football_link_run (depth : nat) (url : string) (tr : trace) :
  exists (answer : string) (ev : trace),
    find_football_link urljoin BeautifulSoup net final_url depth url tr
    = (Ok answer, tr ++ ev)
    /\ (count_gets ev <= depth + 1 + length football_patterns)%nat.
Proof.
  revert url tr. induction depth as [|depth IH]; intros url tr.
  all: cbn [find_football_link]; rewrite find_football_link_body_unfold; cbn zeta.
  all: assert (forall answer : string,
                 exists (answer0 : string) (ev : trace),
                   (Ok answer, tr ++ [RequestsGet (normalize_url url) 60])
                   = (Ok answer0, tr ++ ev)
                   /\ (count_gets ev <= 1)%nat) as Hpage
      by (intros answer; exists answer, [RequestsGet (normalize_url url) 60];
          split; [reflexivity | unfold count_gets; simpl; lia]).
  all: assert (exists (answer0 : string) (ev : trace),
                 match get_simulate_football_link urljoin net
                         (final_url tr (normalize_url url))
                         (tr ++ [RequestsGet (normalize_url url) 60]) with
                 | (Ok (Some (String a s)), tr2) => (Ok (String a s), tr2)
                 | (_, tr2) => (Ok "Not found", tr2)
                 end = (Ok answer0, tr ++ ev)
                 /\ (count_gets ev <= 1 + length football_patterns)%nat) as Hprobe
      by (destruct (simulate_requests FootballProbe urljoin net
                      (final_url tr (normalize_url url))
                      (tr ++ [RequestsGet (normalize_url url) 60]))
            as (o & ev & Hrun & Hc);
          cbn [simulate] in Hrun; rewrite Hrun, <- app_assoc;
          change (simulate_patterns FootballProbe) with football_patterns in Hc;
          destruct o as [[|a s]|];
          eexists _, ([RequestsGet (normalize_url url) 60] ++ ev);
          (split; [reflexivity|]); rewrite count_gets_app;
          change (count_gets [RequestsGet (normalize_url url) 60]) with 1%nat; lia).
  - destruct (net tr (normalize_url url)) as [r|];
      [|destruct (Hpage "Not found") as (a & ev & E & Hc); exists a, ev; split; [exact E | lia]].
    destruct (attempt_fails (Some r));
      [destruct (Hpage "Not found") as (a & ev & E & Hc); exists a, ev; split; [exact E | lia]|].
    destruct (find skip_anchor (BeautifulSoup (text r))) as [skip_link|].
    + destruct (get "href" skip_link) as [href|]; unfold ret;
        destruct (Hpage "Not found") as (a & ev & E & Hc); exists a, ev;
        (split; [exact E | lia]).
    + destruct (football_program_links _ _ _ _) as [|first others].
      * destruct Hprobe as (a & ev & E & Hc). exists a, ev. split; [exact E | lia].
      * destruct (Hpage (split_head "?" first)) as (a & ev & E & Hc). exists a, ev.
        split; [exact E | lia].
  - destruct (net tr (normalize_url url)) as [r|];
      [|destruct (Hpage "Not found") as (a & ev & E & Hc); exists a, ev; split; [exact E | lia]].
    destruct (attempt_fails (Some r));
      [destruct (Hpage "Not found") as (a & ev & E & Hc); exists a, ev; split; [exact E | lia]|].
    destruct (find skip_anchor (BeautifulSoup (text r))) as [skip_link|].
    + destruct (get "href" skip_link) as [href|];
        [|destruct (Hpage "Not found") as (a & ev & E & Hc); exists a, ev;
          split; [exact E | lia]].
      destruct (IH (urljoin (final_url tr (normalize_url url)) href)
                  (tr ++ [RequestsGet (normalize_url url) 60])) as (a & ev & -> & Hc).
      exists a, ([RequestsGet (normalize_url url) 60] ++ ev). rewrite <- app_assoc.
      split; [reflexivity|]. rewrite count_gets_app.
      change (count_gets [RequestsGet (normalize_url url) 60]) with 1%nat. lia.
    + destruct (football_program_links _ _ _ _) as [|first others].
      * destruct Hprobe as (a & ev & E & Hc). exists a, ev. split; [exact E | lia].
      * destruct (Hpage (split_head "?" first)) as (a & ev & E & Hc). exists a, ev.
        split; [exact E | lia].
Qed.

(** X20.  [find_football_link] returns, whatever the network does and
    however many splash pages follow one another: it never raises, and
    it makes at most one request for each page it goes through and, at
    the end, one for each suffix of the football list. *)
Theorem find_football_link_requests (depth : nat) (url : string) (tr : trace) :
  exists (answer : string) (ev : trace),
    find_football_link urljoin BeautifulSoup net final_url depth url tr
    = (Ok answer, tr ++ ev)
    /\ (count_gets ev <= depth + 1 + length football_patterns)%nat.
Proof. exact (find_football_link_run depth url tr). Qed.

Variable append_csv : dict -> bool.
Variable now : string.

(** X21.  [process_school] on a school whose [athletics_url] is a
    string, [None] or missing ends after a bounded number of requests,
    in its result or in one of its two exceptions; it raises nothing
    else. *)
Theorem process_school_ends (depth : nat) (school : dict) (tr : trace) :
  (forall z : Z, dict_get school "athletics_url" <> PInt z) ->
  exists (outcome : dag_error + processed) (ev : trace),
    process_school urljoin BeautifulSoup net final_url depth append_csv now school tr
    = (Ok outcome, tr ++ ev)
    /\ (count_gets ev
        <= (depth + 1 + length football_patterns)
           + (1 + length coaches_patterns + length roster_patterns))%nat.
Proof.
  intros Hstr. unfold process_school. cbn zeta.
  destruct (missing_fields school) as [|field rest] eqn:Em.
  2:{ eexists _, []. rewrite app_nil_r. split; [reflexivity|].
      unfold count_gets; simpl; lia. }
  destruct (dict_get school "athletics_url") as [|athletics_url|z] eqn:Ea.
  - assert (In "athletics_url" (missing_fields school)) as Hin.
    { apply missing_fields_In. split; [right; right; left; reflexivity|].
      rewrite Ea. reflexivity. }
    rewrite Em in Hin. destruct Hin.
  - unfold bind at 1.
    destruct (find_football_link_run depth (normalize_url athletics_url) tr)
      as (football_url & ev1 & -> & Hc1).
    destruct (String.eqb football_url "Not found").
    + eexists _, ev1. split; [reflexivity | lia].
    + unfold bind at 1.
      destruct (find_coaches_or_roster_link_run urljoin BeautifulSoup net football_url
                  (tr ++ ev1)) as (roster_url & k & j & -> & Hk & Hj).
      rewrite <- app_assoc.
      assert (count_gets (ev1 ++ [RequestsGet (add_scheme football_url) 60]
                            ++ probes urljoin (add_scheme football_url)
                                 (take k coaches_patterns)
                            ++ probes urljoin (add_scheme football_url)
                                 (take j roster_patterns))
              <= (depth + 1 + length football_patterns)
                 + (1 + length coaches_patterns + length roster_patterns))%nat as Hc.
      { rewrite !count_gets_app, !count_gets_probes, !length_take.
        change (count_gets [RequestsGet (add_scheme football_url) 60]) with 1%nat. lia. }
      destruct (String.eqb roster_url "Not found"); eexists _, _; split;
        try reflexivity; exact Hc.
  - destruct (Hstr z eq_refl).
Qed.

End ClosedFootballLink.

(** ** A keyword that matches nothing *)

Lemma lower_char_not_P (c : ascii) : Ascii.eqb "P" (lower_char c) = false.
Proof. destruct c as [[] [] [] [] [] [] [] []]; reflexivity. Qed.

Lemma Product_not_in_lower (s : string) : str_in "Product" (lower s) = false.
Proof.
  induction s as [|c s IH]; [reflexivity|].
  cbn [lower str_in startswith]. rewrite lower_char_not_P, IH. reflexivity.
Qed.

Lemma existsb_filter_out {A : Type} (f keep : A -> bool) (l : list A) :
  (forall x : A, keep x = false -> f x = false) ->
  existsb f l = existsb f (List.filter keep l).
Proof.
  intros Hout. induction l as [|x l IH]; [reflexivity|].
  cbn [existsb List.filter]. destruct (keep x) eqn:E.
  - cbn [existsb]. rewrite IH. reflexivity.
  - rewrite (Hout x E), IH. reflexivity.
Qed.

(** X22.  The negative keyword "Product" of [find_football_link]
    excludes no anchor: the text and the [href] are put in lower case
    before the keywords are looked for, the keyword is not, so the test
    gives what it gives without it. *)
Theorem Product_excludes_nothing (text href : string) :
  mentions FootballLink.negative_keywords text href
  = mentions (List.filter (fun keyword => negb (String.eqb keyword "Product"))
                          FootballLink.negative_keywords) text href.
Proof.
  unfold mentions. apply existsb_filter_out.
  intros keyword Hk. apply negb_false_iff, String.eqb_eq in Hk. subst keyword.
  rewrite !Product_not_in_lower. reflexivity.
Qed.

(** ** The properties on the concrete site *)

Lemma get_page_returns_last_answer_witness :
  exists (tr0 : trace) (r : response),
    [SleepUniform 1 3; SessionGet "https://x.edu" 30] = tr0 ++ [SessionGet "https://x.edu" 30]
    /\ Site.net tr0 "https://x.edu" = Some r /\ text r = Site.home_html
    /\ ((400 <=? status_code r)%Z && (status_code r <? 600)%Z) = false.
Proof.
  apply (get_page_returns_last_answer Site.net "https://x.edu" 1 []). reflexivity.
Defined.


Lemma sidearm_row_error_isolated_witness :
  sidearm_rows Site.urljoin "https://x.edu/coaches"
               ([Site.jane_row] ++ Campus.anchor_row :: [Site.jane_row])
  = (fst (sidearm_rows Site.urljoin "https://x.edu/coaches" [Site.jane_row])
       ++ fst (sidearm_rows Site.urljoin "https://x.edu/coaches" [Site.jane_row]),
     snd (sidearm_rows Site.urljoin "https://x.edu/coaches" [Site.jane_row])
       ++ WarnSidearmRow KeyError
       :: snd (sidearm_rows Site.urljoin "https://x.edu/coaches" [Site.jane_row])).
Proof.
  apply (sidearm_row_error_isolated Site.urljoin "https://x.edu/coaches"
           [Site.jane_row] [Site.jane_row] Campus.anchor_row
           (Tag "td" [] [] [Tag "a" [] [("name", "roe")] [NavigableString "Sam Roe"]])
           (Tag "a" [] [("name", "roe")] [NavigableString "Sam Roe"])); reflexivity.
Defined.


(** The home page of the concrete site, asked for as "//x.edu". *)
Lemma find_football_link_answer_witness :
  (str_in "?" "https://x.edu/sports/football" = false
   /\ [RequestsGet "https://x.edu" 60] = [] ++ [RequestsGet (normalize_url "//x.edu") 60]
   /\ exists link : node,
       In link (all_links (Site.BeautifulSoup Site.home_html))
       /\ href_of link <> ""
       /\ names_keyword FootballLink.keywords link
       /\ ~ names_keyword FootballLink.negative_keywords link
       /\ "https://x.edu/sports/football"
          = split_head "?" (Site.urljoin (Campus.final_url [] (normalize_url "//x.edu"))
                                         (href_of link)))
  \/ exists (pattern : string) (k : nat),
      football_patterns !! k = Some pattern
      /\ "https://x.edu/sports/football"
         = Site.urljoin (Campus.final_url [] (normalize_url "//x.edu")) pattern
      /\ [RequestsGet "https://x.edu" 60]
         = ([] ++ [RequestsGet (normalize_url "//x.edu") 60])
             ++ probes Site.urljoin (Campus.final_url [] (normalize_url "//x.edu"))
                  (take (S k) football_patterns)
      /\ probe_hit football_probe_keywords
           (Site.net (([] ++ [RequestsGet (normalize_url "//x.edu") 60])
                        ++ probes Site.urljoin (Campus.final_url [] (normalize_url "//x.edu"))
                             (take k football_patterns))
                     "https://x.edu/sports/football") = true.
Proof.
  apply (find_football_link_answer Site.urljoin Site.BeautifulSoup Site.net Campus.final_url
           (fun _ => ret "Not found") "//x.edu" [] [RequestsGet "https://x.edu" 60]
           "https://x.edu/sports/football" {| status_code := 200; text := Site.home_html |}).
  - reflexivity.
  - discriminate.
  - reflexivity.
  - reflexivity.
Defined.

(** The row without a site: [athletics_url] is the empty string. *)
Lemma process_school_missing_field_witness :
  In "athletics_url" (missing_fields Campus.school_data_without_site)
  /\ process_school Site.urljoin Site.BeautifulSoup Site.net Campus.final_url 1
                    Campus.append_csv Campus.now Campus.school_data_without_site []
     = (Ok (inl (ValueError
                   ("Missing required fields for "
                      +:+ pystr (dict_get_or Campus.school_data_without_site "school_name"
                                             (PStr "Unknown School"))
                      +:+ ": " +:+ join ", " (missing_fields Campus.school_data_without_site)))),
        []).
Proof.
  apply (process_school_missing_field Site.urljoin Site.BeautifulSoup Site.net
           Campus.final_url 1 Campus.append_csv Campus.now
           Campus.school_data_without_site "athletics_url" []).
  - right; right; left; reflexivity.
  - reflexivity.
Defined.

Lemma process_school_returns_witness :
  exists (athletics_url football_url roster_url : string) (tr1 : trace),
    missing_fields Campus.school_data = []
    /\ dict_get Campus.school_data "athletics_url" = PStr athletics_url
    /\ find_football_link Site.urljoin Site.BeautifulSoup Site.net Campus.final_url 1
                          (normalize_url athletics_url) [] = (Ok football_url, tr1)
    /\ find_coaches_or_roster_link Site.urljoin Site.BeautifulSoup Site.net football_url tr1
       = (Ok roster_url,
          [RequestsGet "https://x.edu" 60; RequestsGet "https://x.edu/sports/football" 60])
    /\ football_url <> "Not found"
    /\ roster_url <> "Not found"
    /\ result_of Campus.processed_school
       = {[ "school_name" := dict_get_or Campus.school_data "school_name"
                                         (PStr "Unknown School");
            "school_id" := dict_get_or Campus.school_data "ncaa_institution_id"
                                       (PStr "Unknown ID");
            "football_url" := PStr football_url;
            "roster_url" := PStr roster_url ]}
    /\ school_data_of Campus.processed_school
       = <["athletics_url" := PStr (normalize_url athletics_url)]> Campus.school_data.
Proof.
  apply (process_school_returns Site.urljoin Site.BeautifulSoup Site.net Campus.final_url 1
           Campus.append_csv Campus.now Campus.school_data []
           [RequestsGet "https://x.edu" 60; RequestsGet "https://x.edu/sports/football" 60]
           Campus.processed_school).
  vm_compute. reflexivity.
Defined.

Lemma row_validation_witness :
  missing_fields Campus.school_data_without_site
  = (if pytruthy (dict_get_or Campus.row_without_site "athletic_web_url" (PStr "")) then []
     else ["athletics_url"])
  /\ (pytruthy (dict_get_or Campus.row_without_site "athletic_web_url" (PStr "")) = false ->
      process_school Site.urljoin Site.BeautifulSoup Site.net Campus.final_url 1
                     Campus.append_csv Campus.now Campus.school_data_without_site []
      = (Ok (inl (ValueError
                    ("Missing required fields for "
                       +:+ pystr (dict_get_or Campus.row_without_site "school_name" (PStr ""))
                       +:+ ": athletics_url"))), [])).
Proof.
  apply (row_validation Site.urljoin Site.BeautifulSoup Site.net Campus.final_url 1
           Campus.append_csv Campus.now Campus.row_without_site
           Campus.school_data_without_site []).
  vm_compute. reflexivity.
Defined.

Lemma extract_coach_bio_bs4_shape_witness :
  (("education" = "bio" \/ "education" = "email" \/ "education" = "phone")
   /\ exists text : string, BItems ["B.A., Example University"] = BText text)
  \/ (("education" = "education" \/ "education" = "experience")
      /\ exists items : list string,
          BItems ["B.A., Example University"] = BItems items /\ items <> []
          /\ forall item : string,
              In item items ->
              exists n : node,
                In n (descendants (Campus.BeautifulSoup Campus.profile_html))
                /\ is_tag ["p"; "li"; "div"] n = true
                /\ item = strip (get_text n)).
Proof.
  apply (extract_coach_bio_bs4_shape Campus.BeautifulSoup Campus.profile_html "Jane Doe" None
           "education" (BItems ["B.A., Example University"])).
  vm_compute. reflexivity.
Defined.

Lemma process_school_ends_witness :
  exists (outcome : dag_error + processed) (ev : trace),
    process_school Site.urljoin Site.BeautifulSoup Site.net Campus.final_url 1
                   Campus.append_csv Campus.now Campus.school_data []
    = (Ok outcome, [] ++ ev)
    /\ (count_gets ev
        <= (1 + 1 + length football_patterns)
           + (1 + length coaches_patterns + length roster_patterns))%nat.
Proof.
  apply (process_school_ends Site.urljoin Site.BeautifulSoup Site.net Campus.final_url
           Campus.append_csv Campus.now 1 Campus.school_data []).
  intros z H. vm_compute in H. discriminate H.
Defined.
